(** * Kairon AI: the structured-generation client, the search history and the
    spaced-repetition scheduler

    A shallow embedding of [services/geminiService.ts] (the functions built on
    [generateWithSchema] and those that return text), of the [SemanticSearch]
    and [StudyPlanner] pages, of the notifications of [AppContext], of the
    tab shown by [MainContent], and of the scheduler the specification
    describes.

    JavaScript strings are carried by [string]; run-time values that come out
    of [JSON.parse] are carried by [Json]; a promise is carried by its
    outcome, and [console.error] by a log that is threaded along. *)

From Stdlib Require Import Ascii QArith Qminmax Qround Lqa.
From stdpp Require Import base tactics option list strings gmap pretty.

Local Open Scope list_scope.
Local Open Scope string_scope.
Local Set Warnings "-register-all".

(** ** JavaScript values *)

Module Js.

(** A number as its decimal literal [(-1)^negative * mantissa * 10^exp10];
    the value is the IEEE double nearest to it. *)
Record JsNumber := mkNumber { negative : bool; mantissa : N; exp10 : Z }.

(** The values [JSON.parse] produces. An object is the list of its own
    properties, each key once; nothing below depends on their order. *)
Inductive Json :=
| JNull
| JBool (b : bool)
| JNumber (n : JsNumber)
| JString (s : string)
| JArray (items : list Json)
| JObject (members : list (string * Json)).

(** A decimal rounds to [+0] or [-0] when its magnitude is at most half the
    least subnormal double, [2^-1075] (ties go to the even neighbour, zero). *)
Definition rounds_to_zero (n : JsNumber) : bool :=
  (mantissa n =? 0)%N
  || ((exp10 n <? 0)%Z
      && (Z.of_N (mantissa n) * 2 ^ 1075 <=? 10 ^ (- exp10 n))%Z).

(** [ToBoolean]: [null], [false], zero and the empty string are falsy. *)
Definition truthy (v : Json) : bool :=
  match v with
  | JNull => false
  | JBool b => b
  | JNumber n => negb (rounds_to_zero n)
  | JString s => negb (bool_decide (s = ""))
  | JArray _ => true
  | JObject _ => true
  end.

(** [Array.isArray]. *)
Definition Array_isArray (v : Json) : bool :=
  match v with JArray _ => true | _ => false end.

(** Own property of an object ([None] is [undefined]). *)
Fixpoint own_property (members : list (string * Json)) (key : string)
  : option Json :=
  match members with
  | [] => None
  | (k, v) :: rest => if bool_decide (k = key) then Some v
                      else own_property rest key
  end.

(** [v?.key] for a key that no prototype defines (such as [flashcards],
    [mcqs], [snippets]): [undefined] on [null], on primitives and on arrays,
    the own property on objects. *)
Definition optional_get (v : Json) (key : string) : option Json :=
  match v with
  | JObject members => own_property members key
  | _ => None
  end.

(** [x || d] where [x] may be [undefined]. *)
Definition or_default (x : option Json) (d : Json) : Json :=
  match x with
  | Some v => if truthy v then v else d
  | None => d
  end.

(** The built-ins of the host the code calls. [JSON.parse] answers [None]
    where it throws a [SyntaxError]; [JSON.stringify] is only applied to an
    array of strings. *)
Class Platform := {
  String_trim : string → string;
  String_toLowerCase : string → string;
  JSON_parse : string → option Json;
  JSON_stringify : list string → string
}.

End Js.
Export Js.

(** ** A reference host for texts of code units 0 to 255

    The built-ins on the strings whose code units all lie below 256. An
    escape that denotes a code unit from 256 on is outside this fragment and
    is not decoded. *)

Module Latin1.

(** *** [String.prototype.trim] *)

(** White space and line terminators below 256: TAB, LF, VT, FF, CR, SP and
    NBSP. *)
Definition is_white_space (c : ascii) : bool :=
  match c with
  | "009"%char | "010"%char | "011"%char | "012"%char | "013"%char
  | " "%char | "160"%char => true
  | _ => false
  end.

Fixpoint trim_start (s : string) : string :=
  match s with
  | String c rest => if is_white_space c then trim_start rest else s
  | EmptyString => s
  end.

Fixpoint trim_end (s : string) : string :=
  match s with
  | String c rest =>
      match trim_end rest with
      | EmptyString => if is_white_space c then EmptyString
                       else String c EmptyString
      | kept => String c kept
      end
  | EmptyString => s
  end.

Definition trim (s : string) : string := trim_end (trim_start s).

Fixpoint all_white (s : string) : bool :=
  match s with
  | String c rest => is_white_space c && all_white rest
  | EmptyString => true
  end.

Definition starts_white (s : string) : bool :=
  match s with
  | String c _ => is_white_space c
  | EmptyString => false
  end.

Fixpoint ends_white (s : string) : bool :=
  match s with
  | String c EmptyString => is_white_space c
  | String _ rest => ends_white rest
  | EmptyString => false
  end.

(** *** [String.prototype.toLowerCase] *)

Definition lower_code (n : N) : N :=
  if ((65 <=? n) && (n <=? 90))%N then (n + 32)%N
  else if ((192 <=? n) && (n <=? 222) && negb (n =? 215))%N then (n + 32)%N
  else n.

Definition lower_char (c : ascii) : ascii := ascii_of_N (lower_code (N_of_ascii c)).

Fixpoint toLowerCase (s : string) : string :=
  match s with
  | String c rest => String (lower_char c) (toLowerCase rest)
  | EmptyString => EmptyString
  end.

(** *** [JSON.parse] *)

Definition is_json_space (c : ascii) : bool :=
  match c with
  | "009"%char | "010"%char | "013"%char | " "%char => true
  | _ => false
  end.

Fixpoint skip_space (s : string) : string :=
  match s with
  | String c rest => if is_json_space c then skip_space rest else s
  | EmptyString => s
  end.

Definition digit_value (c : ascii) : option N :=
  let n := N_of_ascii c in
  if ((48 <=? n) && (n <=? 57))%N then Some (n - 48)%N else None.

Definition hex_value (c : ascii) : option N :=
  let n := N_of_ascii c in
  if ((48 <=? n) && (n <=? 57))%N then Some (n - 48)%N
  else if ((65 <=? n) && (n <=? 70))%N then Some (n - 55)%N
  else if ((97 <=? n) && (n <=? 102))%N then Some (n - 87)%N
  else None.

(** A run of decimal digits: the value accumulated, how many were read, and
    what follows. *)
Fixpoint read_digits (s : string) (acc : N) (count : nat) : N * nat * string :=
  match s with
  | String c rest =>
      match digit_value c with
      | Some d => read_digits rest (acc * 10 + d)%N (S count)
      | None => (acc, count, s)
      end
  | EmptyString => (acc, count, s)
  end.

Definition read_int (s : string) : option (N * string) :=
  match s with
  | String "0"%char rest => Some (0%N, rest)
  | _ => let '(m, k, rest) := read_digits s 0%N 0%nat in
         if decide (k = 0%nat) then None else Some (m, rest)
  end.

Definition read_frac (m : N) (s : string) : option (N * Z * string) :=
  match s with
  | String "."%char rest =>
      let '(m', k, rest') := read_digits rest m 0%nat in
      if decide (k = 0%nat) then None else Some (m', (- Z.of_nat k)%Z, rest')
  | _ => Some (m, 0%Z, s)
  end.

Definition read_exp (s : string) : option (Z * string) :=
  match s with
  | String ("e"%char | "E"%char) rest =>
      let '(neg, rest1) :=
        match rest with
        | String "-"%char r => (true, r)
        | String "+"%char r => (false, r)
        | _ => (false, rest)
        end in
      let '(e, k, rest2) := read_digits rest1 0%N 0%nat in
      if decide (k = 0%nat) then None
      else Some (if neg then (- Z.of_N e)%Z else Z.of_N e, rest2)
  | _ => Some (0%Z, s)
  end.

Definition read_number (s : string) : option (JsNumber * string) :=
  let '(neg, s1) :=
    match s with
    | String "-"%char r => (true, r)
    | _ => (false, s)
    end in
  '(m, s2) ← read_int s1;
  '(m', e1, s3) ← read_frac m s2;
  '(e2, s4) ← read_exp s3;
  Some (mkNumber neg m' (e1 + e2)%Z, s4).

(** The characters of a string literal after its opening quote, up to and
    including the closing one. *)
Fixpoint read_string (s : string) : option (string * string) :=
  match s with
  | EmptyString => None
  | String "034"%char rest => Some (EmptyString, rest)
  | String "\"%char (String e rest) =>
      let put (c : ascii) (tail : option (string * string)) :=
        '(str, r) ← tail; Some (String c str, r) in
      match e with
      | "034"%char => put "034"%char (read_string rest)
      | "\"%char => put "\"%char (read_string rest)
      | "/"%char => put "/"%char (read_string rest)
      | "b"%char => put "008"%char (read_string rest)
      | "f"%char => put "012"%char (read_string rest)
      | "n"%char => put "010"%char (read_string rest)
      | "r"%char => put "013"%char (read_string rest)
      | "t"%char => put "009"%char (read_string rest)
      | "u"%char =>
          match rest with
          | String h1 (String h2 (String h3 (String h4 rest'))) =>
              a ← hex_value h1; b ← hex_value h2;
              c ← hex_value h3; d ← hex_value h4;
              let code := (((a * 16 + b) * 16 + c) * 16 + d)%N in
              if (code <? 256)%N then put (ascii_of_N code) (read_string rest')
              else None
          | _ => None
          end
      | _ => None
      end
  | String "\"%char EmptyString => None
  | String c rest =>
      if (N_of_ascii c <? 32)%N then None
      else '(str, r) ← read_string rest; Some (String c str, r)
  end.

(** Defining a property: a repeated key keeps its place and takes the later
    value. *)
Fixpoint set_member (members : list (string * Json)) (key : string) (v : Json)
  : list (string * Json) :=
  match members with
  | [] => [(key, v)]
  | (k, w) :: rest => if bool_decide (k = key) then (k, v) :: rest
                      else (k, w) :: set_member rest key v
  end.

Fixpoint read_value (fuel : nat) (s : string) : option (Json * string) :=
  match fuel with
  | O => None
  | S fuel =>
      match skip_space s with
      | String "n"%char (String "u"%char (String "l"%char (String "l"%char r))) =>
          Some (JNull, r)
      | String "t"%char (String "r"%char (String "u"%char (String "e"%char r))) =>
          Some (JBool true, r)
      | String "f"%char (String "a"%char (String "l"%char
          (String "s"%char (String "e"%char r)))) =>
          Some (JBool false, r)
      | String "034"%char r =>
          '(str, r') ← read_string r; Some (JString str, r')
      | String "["%char r =>
          match skip_space r with
          | String "]"%char r' => Some (JArray [], r')
          | r1 => read_items fuel r1 []
          end
      | String "{"%char r =>
          match skip_space r with
          | String "}"%char r' => Some (JObject [], r')
          | r1 => read_members fuel r1 []
          end
      | s' => '(n, r) ← read_number s'; Some (JNumber n, r)
      end
  end
with read_items (fuel : nat) (s : string) (acc : list Json)
  : option (Json * string) :=
  match fuel with
  | O => None
  | S fuel =>
      '(v, r) ← read_value fuel s;
      match skip_space r with
      | String ","%char r' => read_items fuel r' (v :: acc)
      | String "]"%char r' => Some (JArray (rev (v :: acc)), r')
      | _ => None
      end
  end
with read_members (fuel : nat) (s : string) (acc : list (string * Json))
  : option (Json * string) :=
  match fuel with
  | O => None
  | S fuel =>
      match skip_space s with
      | String "034"%char r =>
          '(key, r1) ← read_string r;
          match skip_space r1 with
          | String ":"%char r2 =>
              '(v, r3) ← read_value fuel r2;
              let acc' := set_member acc key v in
              match skip_space r3 with
              | String ","%char r4 => read_members fuel r4 acc'
              | String "}"%char r4 => Some (JObject acc', r4)
              | _ => None
              end
          | _ => None
          end
      | _ => None
      end
  end.

(** One value, with nothing but white space around it. Every nested call is
    made after at least one more character was read by it or its caller, so
    twice the length bounds the depth. *)
Definition parse (text : string) : option Json :=
  '(v, rest) ← read_value (2 * String.length text + 2) text;
  match skip_space rest with
  | EmptyString => Some v
  | _ => None
  end.

(** *** [JSON.stringify] of an array of strings *)

Definition hex_digit (n : N) : ascii :=
  if (n <? 10)%N then ascii_of_N (48 + n) else ascii_of_N (87 + n).

Definition quote_char (c : ascii) : string :=
  match c with
  | "034"%char => String "\" (String "034" EmptyString)
  | "\"%char => "\\"
  | "008"%char => "\b"
  | "012"%char => "\f"
  | "010"%char => "\n"
  | "013"%char => "\r"
  | "009"%char => "\t"
  | _ =>
      let n := N_of_ascii c in
      if (n <? 32)%N
      then "\u00" ++ String (hex_digit (n / 16)) (String (hex_digit (n mod 16)) EmptyString)
      else String c EmptyString
  end.

Fixpoint quote_chars (s : string) : string :=
  match s with
  | String c rest => quote_char c ++ quote_chars rest
  | EmptyString => EmptyString
  end.

Definition quote (s : string) : string :=
  String "034" (quote_chars s ++ String "034" EmptyString).

Fixpoint join_comma (parts : list string) : string :=
  match parts with
  | [] => EmptyString
  | [p] => p
  | p :: rest => p ++ "," ++ join_comma rest
  end.

Definition stringify (items : list string) : string :=
  "[" ++ join_comma (map quote items) ++ "]".

#[export] Instance host : Platform := {|
  String_trim := trim;
  String_toLowerCase := toLowerCase;
  JSON_parse := parse;
  JSON_stringify := stringify
|}.

End Latin1.

(** ** services/geminiService.ts *)

Module GeminiService.

(** [Type.ARRAY], [Type.OBJECT], [Type.STRING] and [Type.INTEGER] schema
    nodes, with the fields the schemas below use. *)
Inductive Schema :=
| STRING (description : option string)
| INTEGER
| ARRAY (items : Schema)
| OBJECT (properties : list (string * Schema)) (required : list string).

Record GenerationConfig := {
  responseMimeType : string;
  responseSchema : Schema
}.

(** The argument of [ai.models.generateContent]. *)
Record Request := {
  model : string;
  contents : string;
  config : GenerationConfig
}.

(** What a [catch] clause receives: an instance of [Error] with its message,
    or any other thrown value. *)
Inductive Thrown :=
| ErrorInstance (message : string)
| OtherValue (value : Json).

(** How the awaited backend call ends: a response, of which only [text] is
    read and is used as a string, or an exception. *)
Inductive Reply :=
| Fulfilled (text : string)
| Throws (error : Thrown).

(** The remote model, as the answer it gives to a request. *)
Definition Backend := Request → Reply.

(** [new Error(message)]. *)
Record JsError := Error { message : string }.

(** The arguments of one [console.error] call. *)
Inductive LogArg :=
| LogText (s : string)
| LogThrown (error : Thrown)
| LogSyntaxError.

Definition Console := list (list LogArg).

(** How a promise settles. *)
Inductive Outcome (A : Type) :=
| Resolved (value : A)
| Rejected (reason : JsError).
Arguments Resolved {A} value.
Arguments Rejected {A} reason.

(** An [async] computation: what it wrote to the console and how its promise
    settled. *)
Definition Async (A : Type) : Type := Console * Outcome A.

Definition ret {A} (a : A) : Async A := ([], Resolved a).

Definition reject {A} (e : JsError) : Async A := ([], Rejected e).

Definition console_error (args : list LogArg) : Async unit :=
  ([args], Resolved tt).

(** [await]: a rejection leaves the [async] function at once. *)
Definition bind {A B} (m : Async A) (k : A → Async B) : Async B :=
  match m with
  | (log, Resolved a) => let '(log', out) := k a in ((log ++ log')%list, out)
  | (log, Rejected e) => (log, Rejected e)
  end.

#[export] Instance Async_ret : MRet Async := @ret.
#[export] Instance Async_bind : MBind Async := λ A B k m, bind m k.

Definition nl : string := String "010" EmptyString.
Definition dq : string := String "034" EmptyString.

Definition handleApiError {A} (error : Thrown) (context : string) : Async A :=
  console_error [LogText ("Error during '" ++ context ++ "':"); LogThrown error] ;;
  let message :=
    match error with
    | ErrorInstance m => "API Error during " ++ context ++ ": " ++ m
    | OtherValue _ => "An unknown error occurred during " ++ context ++ "."
    end in
  reject (Error message).

(** The request of a structured call: the prompt, and the schema attached as
    a generation-time directive. *)
Definition structuredRequest (model prompt : string) (schema : Schema) : Request :=
  {| model := model;
     contents := prompt;
     config := {| responseMimeType := "application/json";
                  responseSchema := schema |} |}.

Definition generateWithSchema `{Platform} (ai : Backend)
    (model prompt : string) (schema : Schema) (context : string) : Async Json :=
  match ai (structuredRequest model prompt schema) with
  | Fulfilled text =>
      let jsonText := String_trim text in
      match JSON_parse jsonText with
      | Some value => ret value
      | None =>
          console_error [LogText ("JSON parsing error during '" ++ context ++ "':");
                         LogSyntaxError] ;;
          console_error [LogText "Received malformed text from API:";
                         LogText jsonText] ;;
          reject (Error ("The API returned an invalid format for " ++ context
                         ++ ". Please try again."))
      end
  | Throws error => handleApiError error context
  end.

Definition flashcardPrompt (text language : string) : string :=
  "Based on the following text, generate a list of 10 question and answer flashcards. The questions should cover key concepts, definitions, and important facts from the text. The answers should be concise and directly derivable from the text. Please provide the response in "
  ++ language ++ "." ++ nl ++ nl ++ "---" ++ nl ++ text ++ nl ++ "---".

Definition flashcardSchema : Schema :=
  ARRAY (OBJECT [("question", STRING None); ("answer", STRING None)]
                ["question"; "answer"]).

Definition generateFlashcards `{Platform} (ai : Backend)
    (model text language : string) : Async Json :=
  result ← generateWithSchema ai model (flashcardPrompt text language)
              flashcardSchema "flashcard generation";
  ret (if Array_isArray result then result
       else or_default (optional_get result "flashcards") (JArray [])).

Inductive Difficulty := Easy | Medium | Hard.

Definition difficultyName (d : Difficulty) : string :=
  match d with Easy => "Easy" | Medium => "Medium" | Hard => "Hard" end.

Definition difficultyInstruction (d : Difficulty) : string :=
  match d with
  | Easy => "The questions should be straightforward, testing basic recall of definitions and key facts presented in the text."
  | Medium => "The questions should require comprehension and application of the main concepts, potentially asking to interpret information."
  | Hard => "The questions should be challenging, requiring analysis, synthesis, or evaluation of the information. They may involve subtle distinctions, multi-step reasoning, or application to new scenarios."
  end.

Definition mcqPrompt (text language : string) (difficulty : Difficulty) : string :=
  "Based on the following text, generate a list of 5 multiple-choice questions (MCQs) of "
  ++ difficultyName difficulty ++ " difficulty. " ++ difficultyInstruction difficulty
  ++ " Each question should have 4 options, with one clear correct answer. For each question, also provide a brief explanation for why the correct answer is correct. This explanation will be shown to the student after they answer. Please provide the response in "
  ++ language ++ "." ++ nl ++ nl ++ "---" ++ nl ++ text ++ nl ++ "---".

Definition mcqSchema : Schema :=
  ARRAY (OBJECT
    [("question", STRING None);
     ("options", ARRAY (STRING None));
     ("correctAnswer", STRING None);
     ("explanation", STRING (Some
        "A brief explanation of why the correct answer is correct, to be shown to the user after they answer."))]
    ["question"; "options"; "correctAnswer"; "explanation"]).

Definition generateMCQs `{Platform} (ai : Backend)
    (model text language : string) (difficulty : Difficulty) : Async Json :=
  result ← generateWithSchema ai model (mcqPrompt text language difficulty)
              mcqSchema "MCQ generation";
  ret (if Array_isArray result then result
       else or_default (optional_get result "mcqs") (JArray [])).

Definition searchPrompt (text query : string) (topK : N) : string :=
  "From the provided text, extract the top " ++ pretty topK
  ++ " most relevant snippets related to the following query: " ++ dq ++ query ++ dq
  ++ ". The snippets should be direct quotes from the text." ++ nl
  ++ nl
  ++ "--- TEXT ---" ++ nl
  ++ text ++ nl
  ++ "--- QUERY ---" ++ nl
  ++ query ++ nl.

Definition searchSchema : Schema :=
  OBJECT [("snippets", ARRAY (STRING None))] ["snippets"].

Definition performSemanticSearch `{Platform} (ai : Backend)
    (model text query : string) (topK : N) : Async Json :=
  result ← generateWithSchema ai model (searchPrompt text query topK)
              searchSchema "semantic search";
  ret (or_default (optional_get result "snippets") (JArray [])).

Definition conceptMapSchema : Schema :=
  OBJECT
    [("nodes", ARRAY (OBJECT [("id", STRING None); ("group", INTEGER)]
                             ["id"; "group"]));
     ("links", ARRAY (OBJECT [("source", STRING None); ("target", STRING None);
                              ("value", INTEGER)]
                             ["source"; "target"; "value"]))]
    ["nodes"; "links"].

(** [{ nodes: [], links: [] }]. *)
Definition emptyConceptMap : Json :=
  JObject [("nodes", JArray []); ("links", JArray [])].

Definition conceptMapPrompt (text language : string) : string :=
  "Analyze the following text and generate a concept map. Identify the main concepts as nodes and the relationships between them as links. Provide the output as a JSON object with 'nodes' and 'links' arrays. Each node should have an 'id' (the concept name) and a 'group' (a number for coloring). Each link should have a 'source' id, a 'target' id, and a 'value' representing the strength of the relationship (from 1 to 10). Please provide the concept names (node ids) in "
  ++ language ++ "." ++ nl ++ nl ++ "---" ++ nl ++ text ++ nl ++ "---".

Definition generateConceptMapData `{Platform} (ai : Backend)
    (model text language : string) : Async Json :=
  result ← generateWithSchema ai model (conceptMapPrompt text language)
              conceptMapSchema "concept map generation";
  ret (or_default (Some result) emptyConceptMap).

Definition conceptMapTopicPrompt (topic language : string) : string :=
  "Generate a concept map for the topic: " ++ dq ++ topic ++ dq
  ++ ". Identify the main concepts as nodes and the relationships between them as links. Provide the output as a JSON object with 'nodes' and 'links' arrays. Each node should have an 'id' (the concept name) and a 'group' (a number for coloring). Each link should have a 'source' id, a 'target' id, and a 'value' representing the strength of the relationship (from 1 to 10). Please provide the concept names (node ids) in "
  ++ language ++ ".".

Definition generateConceptMapForTopic `{Platform} (ai : Backend)
    (model topic language : string) : Async Json :=
  result ← generateWithSchema ai model (conceptMapTopicPrompt topic language)
              conceptMapSchema
              ("concept map generation for topic " ++ dq ++ topic ++ dq);
  ret (or_default (Some result) emptyConceptMap).

(** *** The error kinds

    Both failures are plain [Error] objects; the kind is told by the
    template of the message. *)

Definition isBackendError (e : JsError) : bool :=
  String.prefix "API Error during " (message e)
  || String.prefix "An unknown error occurred during " (message e).

Definition isMalformedResponseError (e : JsError) : bool :=
  String.prefix "The API returned an invalid format for " (message e).

End GeminiService.

(** ** context/AppContext.tsx: notifications *)

Module AppContext.

Inductive NotificationType := error | success | info.

Record Notification := {
  id : Z;
  message : string;
  type : NotificationType
}.

(** [addNotification(message, type = 'error')]; [now] is what [Date.now()]
    answers. The dismissal five seconds later is a separate, later event:
    [removeNotification]. *)
Definition addNotification (now : Z) (message : string) (type : NotificationType)
    (notifications : list Notification) : list Notification :=
  (notifications ++ [{| id := now; message := message; type := type |}])%list.

Definition removeNotification (id' : Z) (notifications : list Notification)
  : list Notification :=
  filter (λ n, id n ≠ id') notifications.

End AppContext.

(** ** components/features/SemanticSearch.tsx *)

Module SemanticSearch.

Import GeminiService.

Definition SEARCH_HISTORY_KEY : string := "semanticSearchHistory".

(** What the component reads and writes: the application context it uses,
    its own state hooks, and the browser's [localStorage]. *)
Record Component := {
  ingestedText : option string;
  llm : string;
  notifications : list AppContext.Notification;
  query : string;
  isLoading : bool;
  topK : N;
  results : Json;
  searchAttempted : bool;
  searchHistory : list string;
  localStorage : gmap string string
}.

Definition setIsLoading (b : bool) (c : Component) : Component :=
  {| ingestedText := ingestedText c; llm := llm c;
     notifications := notifications c; query := query c;
     isLoading := b; topK := topK c; results := results c;
     searchAttempted := searchAttempted c;
     searchHistory := searchHistory c; localStorage := localStorage c |}.

Definition setSearchAttempted (b : bool) (c : Component) : Component :=
  {| ingestedText := ingestedText c; llm := llm c;
     notifications := notifications c; query := query c;
     isLoading := isLoading c; topK := topK c; results := results c;
     searchAttempted := b;
     searchHistory := searchHistory c; localStorage := localStorage c |}.

Definition setResults (r : Json) (c : Component) : Component :=
  {| ingestedText := ingestedText c; llm := llm c;
     notifications := notifications c; query := query c;
     isLoading := isLoading c; topK := topK c; results := r;
     searchAttempted := searchAttempted c;
     searchHistory := searchHistory c; localStorage := localStorage c |}.

Definition setSearchHistory (h : list string) (c : Component) : Component :=
  {| ingestedText := ingestedText c; llm := llm c;
     notifications := notifications c; query := query c;
     isLoading := isLoading c; topK := topK c; results := results c;
     searchAttempted := searchAttempted c;
     searchHistory := h; localStorage := localStorage c |}.

Definition localStorage_setItem (key value : string) (c : Component) : Component :=
  {| ingestedText := ingestedText c; llm := llm c;
     notifications := notifications c; query := query c;
     isLoading := isLoading c; topK := topK c; results := results c;
     searchAttempted := searchAttempted c;
     searchHistory := searchHistory c;
     localStorage := <[key := value]> (localStorage c) |}.

Definition addNotification (now : Z) (message : string)
    (type : AppContext.NotificationType) (c : Component) : Component :=
  {| ingestedText := ingestedText c; llm := llm c;
     notifications := AppContext.addNotification now message type (notifications c);
     query := query c;
     isLoading := isLoading c; topK := topK c; results := results c;
     searchAttempted := searchAttempted c;
     searchHistory := searchHistory c; localStorage := localStorage c |}.

(** [[newQuery, ...searchHistory.filter(item => item.toLowerCase() !==
    newQuery.toLowerCase())].slice(0, 10)]. *)
Definition updatedHistory `{Platform} (newQuery : string)
    (searchHistory : list string) : list string :=
  take 10 (newQuery ::
           filter (λ item, String_toLowerCase item ≠ String_toLowerCase newQuery)
                  searchHistory).

Definition updateSearchHistory `{Platform} (newQuery : string) (c : Component)
  : Component :=
  let updated := updatedHistory newQuery (searchHistory c) in
  localStorage_setItem SEARCH_HISTORY_KEY (JSON_stringify updated)
    (setSearchHistory updated c).

(** [runSearch(currentQuery)], run to the end of its [finally] block: the
    console output of the service call and the component after it. *)
Definition runSearch `{Platform} (now : Z) (ai : Backend) (currentQuery : string)
    (c : Component) : Console * Component :=
  match ingestedText c with
  | None | Some EmptyString =>
      ([], addNotification now "Please ingest some text first." AppContext.info c)
  | Some text =>
      if bool_decide (String_trim currentQuery = "") then
        ([], addNotification now "Please enter a search query." AppContext.info c)
      else
        let c1 := setResults (JArray [])
                    (setSearchAttempted true (setIsLoading true c)) in
        let c2 := updateSearchHistory currentQuery c1 in
        let '(log, outcome) :=
          performSemanticSearch ai (llm c) text currentQuery (topK c) in
        let c3 :=
          match outcome with
          | Resolved searchResults => setResults searchResults c2
          | Rejected e => addNotification now (message e) AppContext.error c2
          end in
        (log, setIsLoading false c3)
  end.

End SemanticSearch.

(** ** The spaced-repetition scheduler *)

Module Scheduler.

Local Open Scope Q_scope.

Inductive Grade := Again | Hard | Good | Easy.

(** [SRFlashcard] of types.ts; dates are day numbers. *)
Record ScheduledFlashcard := {
  question : string;
  answer : string;
  id : string;
  easeFactor : Q;
  interval : Z;
  dueDate : Z
}.

Definition MIN_INTERVAL : Z := 1.
Definition EASE_FLOOR : Q := 13 # 10.
Definition AGAIN_PENALTY : Q := 2 # 10.
Definition HARD_PENALTY : Q := 15 # 100.
Definition EASY_BONUS : Q := 15 # 100.
Definition HARD_MULTIPLIER : Q := 12 # 10.
Definition EASY_MULTIPLIER : Q := 13 # 10.

(** Rounding to the nearest whole day, halves upwards. *)
Definition round (q : Q) : Z := Qfloor (q + (1 # 2)).

(** Modelled from the spec: the [review] operation of the scheduler, which
    the sources at hand do not contain (types.ts only declares the card).
    Section 4.2: [Again] resets the interval to the minimum unit and lowers
    the ease factor by a fixed penalty, floored; [Hard] grows the interval
    by a sub-linear multiplier, at least one day over the previous one, and
    lowers the ease factor by a small penalty, floored; [Good] grows the
    interval by the ease factor, at least to the minimum unit, and keeps the
    ease factor; [Easy] grows it by the ease factor times a bonus multiplier
    and raises the ease factor by a fixed bonus. The due date is the grading
    date, which the caller supplies, plus the new interval. *)
Definition review (card : ScheduledFlashcard) (grade : Grade) (gradingDate : Z)
  : ScheduledFlashcard :=
  let previous := inject_Z (interval card) in
  let '(interval', ease') :=
    match grade with
    | Again =>
        (MIN_INTERVAL, Qmax EASE_FLOOR (easeFactor card - AGAIN_PENALTY))
    | Hard =>
        (Z.max (interval card + 1) (round (previous * HARD_MULTIPLIER)),
         Qmax EASE_FLOOR (easeFactor card - HARD_PENALTY))
    | Good =>
        (Z.max MIN_INTERVAL (round (previous * easeFactor card)),
         easeFactor card)
    | Easy =>
        (Z.max MIN_INTERVAL
           (round (previous * easeFactor card * EASY_MULTIPLIER)),
         easeFactor card + EASY_BONUS)
    end in
  {| question := question card; answer := answer card; id := id card;
     easeFactor := ease'; interval := interval';
     dueDate := (gradingDate + interval')%Z |}.

(** A run of reviews, each with its grade and grading date, oldest first. *)
Definition reviews (card : ScheduledFlashcard) (gradings : list (Grade * Z))
  : ScheduledFlashcard :=
  fold_left (λ c g, review c g.1 g.2) gradings card.

End Scheduler.

(** ** What the specification asks of a decoded value *)

Module Shape.

Import GeminiService.

(** A decimal literal that denotes a whole number. *)
Definition is_integer (n : JsNumber) : bool :=
  (0 <=? exp10 n)%Z
  || (Z.of_N (mantissa n) mod 10 ^ (- exp10 n) =? 0)%Z.

(** The declared shape, read as its field names say: a value of the node's
    type, every item of an array of the items' shape, every required
    property present and every declared property that is present of its
    shape. *)
Fixpoint conforms (schema : Schema) (v : Json) {struct schema} : bool :=
  match schema, v with
  | STRING _, JString _ => true
  | INTEGER, JNumber n => is_integer n
  | ARRAY items, JArray vs => forallb (conforms items) vs
  | OBJECT properties required, JObject members =>
      forallb (λ key, bool_decide (is_Some (own_property members key))) required
      && (fix all_properties (ps : list (string * Schema)) : bool :=
            match ps with
            | [] => true
            | (key, sub) :: rest =>
                match own_property members key with
                | Some w => conforms sub w
                | None => true
                end && all_properties rest
            end) properties
  | _, _ => false
  end.

(** Step 4 of the decoding algorithm as the specification words it: an
    array is returned directly, a single-key wrapper whose only key is the
    list's name is unwrapped, any other value is returned as it is. *)
Definition unwrap_as_specified (name : string) (decoded : Json) : Json :=
  match decoded with
  | JArray _ => decoded
  | JObject [(key, v)] => if bool_decide (key = name) then v else decoded
  | _ => decoded
  end.

Definition is_string (v : Json) : bool :=
  match v with JString _ => true | _ => false end.

Definition is_the_string (s : string) (v : Json) : bool :=
  match v with JString s' => bool_decide (s' = s) | _ => false end.

(** An MCQ as section 3 of the specification has it: four options, all
    strings, exactly one of them equal to [correctAnswer]. *)
Definition well_formed_mcq (v : Json) : bool :=
  match optional_get v "options", optional_get v "correctAnswer" with
  | Some (JArray options), Some (JString correct) =>
      bool_decide (length options = 4%nat)
      && forallb is_string options
      && bool_decide
           (length (List.filter (is_the_string correct) options) = 1%nat)
  | _, _ => false
  end.

End Shape.

(** ** Concrete backends, texts and pages *)

Module Examples.

Import GeminiService SemanticSearch.

(** A backend that answers every request with the same text. *)
Definition replies (text : string) : Backend := λ _, Fulfilled text.

(** A backend whose call fails with the same thrown value. *)
Definition fails (error : Thrown) : Backend := λ _, Throws error.

(** A JSON string literal of a text without special characters. *)
Definition lit (s : string) : string := dq ++ s ++ dq.

(** [[{"question":"What does photosynthesis convert?","answer":"Light into
    chemical energy."}]] *)
Definition oneFlashcardText : string :=
  "[{" ++ lit "question" ++ ":" ++ lit "What does photosynthesis convert?" ++ ","
  ++ lit "answer" ++ ":" ++ lit "Light into chemical energy." ++ "}]".

Definition oneFlashcard : Json :=
  JObject [("question", JString "What does photosynthesis convert?");
           ("answer", JString "Light into chemical energy.")].

(** The same array under a [flashcards] key, with white space around. *)
Definition wrappedFlashcardText : string :=
  " {" ++ lit "flashcards" ++ ": " ++ oneFlashcardText ++ "}" ++ nl.

(** An MCQ with two options, neither of which is the correct answer. *)
Definition twoOptionMcqText : string :=
  "[{" ++ lit "question" ++ ":" ++ lit "Which pigment absorbs light?" ++ ","
  ++ lit "options" ++ ":[" ++ lit "Keratin" ++ "," ++ lit "Melanin" ++ "],"
  ++ lit "correctAnswer" ++ ":" ++ lit "Chlorophyll" ++ ","
  ++ lit "explanation" ++ ":" ++ lit "Chlorophyll absorbs red and blue light." ++ "}]".

Definition twoOptionMcq : Json :=
  JObject [("question", JString "Which pigment absorbs light?");
           ("options", JArray [JString "Keratin"; JString "Melanin"]);
           ("correctAnswer", JString "Chlorophyll");
           ("explanation", JString "Chlorophyll absorbs red and blue light.")].

(** An MCQ with four options, one of them the correct answer. *)
Definition fourOptionMcqText : string :=
  "[{" ++ lit "question" ++ ":" ++ lit "Which pigment absorbs light?" ++ ","
  ++ lit "options" ++ ":[" ++ lit "Keratin" ++ "," ++ lit "Melanin" ++ ","
  ++ lit "Chlorophyll" ++ "," ++ lit "Insulin" ++ "],"
  ++ lit "correctAnswer" ++ ":" ++ lit "Chlorophyll" ++ ","
  ++ lit "explanation" ++ ":" ++ lit "Chlorophyll absorbs red and blue light." ++ "}]".

Definition fourOptionMcq : Json :=
  JObject [("question", JString "Which pigment absorbs light?");
           ("options", JArray [JString "Keratin"; JString "Melanin";
                               JString "Chlorophyll"; JString "Insulin"]);
           ("correctAnswer", JString "Chlorophyll");
           ("explanation", JString "Chlorophyll absorbs red and blue light.")].

(** A thrown plain object [{ message: "quota exceeded" }], which is no
    instance of [Error]. *)
Definition plainObjectWithMessage : Thrown :=
  OtherValue (JObject [("message", JString "quota exceeded")]).

Definition notes : string := "Photosynthesis converts light into chemical energy.".

(** The search page after ingestion, with two earlier searches. *)
Definition page : Component :=
  {| ingestedText := Some notes;
     llm := "gemini-2.5-flash";
     notifications := [];
     query := "light";
     isLoading := false;
     topK := 4;
     results := JArray [];
     searchAttempted := false;
     searchHistory := ["Chlorophyll"; "light"];
     localStorage := {[ SEARCH_HISTORY_KEY := Latin1.stringify ["Chlorophyll"; "light"] ]} |}.

(** A card that was never reviewed. *)
Definition freshCard : Scheduler.ScheduledFlashcard :=
  {| Scheduler.question := "What does photosynthesis convert?";
     Scheduler.answer := "Light into chemical energy.";
     Scheduler.id := "card-1";
     Scheduler.easeFactor := 25 # 10;
     Scheduler.interval := 6;
     Scheduler.dueDate := 20 |}.

End Examples.

(** ** Statements of the specification, as predicates *)

Module Stated.

Import GeminiService SemanticSearch.

(** What the list-returning entry points do with a decoded value: an array
    is returned itself; otherwise a truthy value under the list's key is
    returned; otherwise the empty array. *)
Definition tolerant_unwrap (name : string) (decoded result : Json) : Prop :=
  (∀ items, decoded = JArray items → result = JArray items)
  ∧ (∀ v, Array_isArray decoded = false → optional_get decoded name = Some v →
          truthy v = true → result = v)
  ∧ (Array_isArray decoded = false →
     (∀ v, optional_get decoded name = Some v → truthy v = false) →
     result = JArray []).

(** Every returned value has the declared shape and every failure is of
    exactly one of the two kinds. *)
Definition shape_safe `{Platform} (ai : Backend) (model prompt : string)
    (schema : Schema) (context : string) : Prop :=
  match (generateWithSchema ai model prompt schema context).2 with
  | Resolved value => Shape.conforms schema value = true
  | Rejected e => isBackendError e ≠ isMalformedResponseError e
  end.

(** A failed search leaves the search history, in the component and in the
    store, as it was. *)
Definition failed_search_commits_nothing `{Platform} (now : Z) (ai : Backend)
    (currentQuery : string) (c : Component) : Prop :=
  ∀ text log e,
    ingestedText c = Some text →
    performSemanticSearch ai (llm c) text currentQuery (topK c) = (log, Rejected e) →
    searchHistory (runSearch now ai currentQuery c).2 = searchHistory c
    ∧ localStorage (runSearch now ai currentQuery c).2 = localStorage c.

(** The message of a backend failure contains the message of the value the
    call threw. *)
Definition wraps (inner outer : string) : bool :=
  bool_decide (is_Some (String.index 0 inner outer)).

(** Every MCQ of a returned array is well formed. *)
Definition returns_well_formed_mcqs (out : Outcome Json) : Prop :=
  ∀ items mcq, out = Resolved (JArray items) → mcq ∈ items →
               Shape.well_formed_mcq mcq = true.

End Stated.

(** ** types.ts: chat messages and MCQs *)

Module Types.

Inductive Role := user | model.

Record ChatMessage := {
  role : Role;
  content : string
}.

Record MCQ := {
  question : string;
  options : list string;
  correctAnswer : string;
  explanation : string
}.

(** [enum Tab], in the order of its declaration. *)
Inductive Tab :=
| Ingest | Summary | SRSFlashcards | MCQTab | SemanticSearchTab | AITutor
| AudioAnalysis | ConceptMap | LessonPlanner | StudyPlannerTab.

End Types.

(** ** services/geminiService.ts: the entry points that return text *)

Module GeminiText.

Import GeminiService.

(** A part of a message: [{ text }] or [{ inlineData: { data, mimeType } }]. *)
Inductive Part :=
| TextPart (text : string)
| InlineDataPart (data mimeType : string).

(** [{ role, parts }]. *)
Record Content := {
  role : Types.Role;
  parts : list Part
}.

(** The three forms of [contents] the calls use: a prompt, one
    [{ parts }] object, an array of turns. *)
Inductive Contents :=
| Prompt (text : string)
| Parts (parts : list Part)
| Turns (turns : list Content).

Record Config := {
  systemInstruction : string
}.

(** The argument of [ai.models.generateContent] for a call without a
    schema. *)
Record Parameters := {
  model : string;
  contents : Contents;
  config : option Config
}.

Definition TextBackend := Parameters → Reply.

Definition topicInfoPrompt (topic language : string) : string :=
  "Generate a comprehensive set of study notes about the following topic: "
  ++ dq ++ topic ++ dq
  ++ ". The notes should be well-structured, informative, and suitable for someone studying this topic. Cover key definitions, main concepts, and important examples. Please provide the response in "
  ++ language ++ ".".

Definition fetchTopicInfo (ai : TextBackend) (model topic language : string)
  : Async string :=
  match ai {| model := model;
              contents := Prompt (topicInfoPrompt topic language);
              config := None |} with
  | Fulfilled text => ret text
  | Throws error => handleApiError error "fetching topic info"
  end.

Definition summaryPrompt (text language : string) : string :=
  "Summarize the following text in a concise and informative way, in "
  ++ language ++ ":" ++ nl ++ nl ++ "---" ++ nl ++ text ++ nl ++ "---".

Definition generateSummary (ai : TextBackend) (model text language : string)
  : Async string :=
  match ai {| model := model;
              contents := Prompt (summaryPrompt text language);
              config := None |} with
  | Fulfilled text => ret text
  | Throws error => handleApiError error "summary generation"
  end.

Definition answerPrompt (context question language : string) : string :=
  "Using ONLY the provided context below, answer the user's question in "
  ++ language ++ ". If the answer is not found in the context, say " ++ dq
  ++ "The answer is not available in the provided text." ++ dq ++ " in "
  ++ language ++ "." ++ nl ++ nl ++ "--- CONTEXT ---" ++ nl ++ context ++ nl
  ++ nl ++ "--- QUESTION ---" ++ nl ++ question.

Definition generateAnswer (ai : TextBackend)
    (model context question language : string) : Async string :=
  match ai {| model := model;
              contents := Prompt (answerPrompt context question language);
              config := None |} with
  | Fulfilled text => ret text
  | Throws error => handleApiError error "answer generation"
  end.

(** [Array.prototype.join]. *)
Fixpoint join (separator : string) (items : list string) : string :=
  match items with
  | [] => EmptyString
  | [item] => item
  | item :: rest => item ++ separator ++ join separator rest
  end.

Definition incorrectQuestionLine (question correctAnswer : string) : string :=
  "- Question: " ++ dq ++ question ++ dq ++ " (Correct Answer: " ++ dq
  ++ correctAnswer ++ dq ++ ")".

Definition studyGuidePrompt (text incorrectQuestionsText language : string) : string :=
  "A student is studying the following text and has incorrectly answered some multiple-choice questions. Based on the text and their specific mistakes, generate a personalized study guide to help them understand the concepts they are struggling with. The guide should be concise, targeted, and easy to understand. Please provide the response in "
  ++ language ++ "." ++ nl ++ nl ++ "--- ORIGINAL TEXT ---" ++ nl ++ text ++ nl
  ++ "---" ++ nl ++ nl ++ "--- INCORRECTLY ANSWERED QUESTIONS ---" ++ nl
  ++ incorrectQuestionsText ++ nl ++ "---" ++ nl ++ nl ++ "Your task is to:"
  ++ nl
  ++ "1. Identify the core concepts the student is misunderstanding based on their errors."
  ++ nl
  ++ "2. Extract the most relevant information from the original text that explains these concepts."
  ++ nl
  ++ "3. Present this information as a clear, focused study guide. Start with a brief overview of the weak areas and then provide explanations.".

Definition generatePersonalizedStudyGuide (ai : TextBackend)
    (model text : string) (incorrectMCQs : list Types.MCQ) (language : string)
  : Async string :=
  let incorrectQuestionsText :=
    join nl (map (λ mcq, incorrectQuestionLine (Types.question mcq)
                                               (Types.correctAnswer mcq))
                 incorrectMCQs) in
  match ai {| model := model;
              contents := Prompt (studyGuidePrompt text incorrectQuestionsText language);
              config := None |} with
  | Fulfilled text => ret text
  | Throws error => handleApiError error "personalized study guide generation"
  end.

Definition extractTextPrompt : string :=
  "Extract all text content from the provided file. The output should be formatted as plain text, preserving paragraphs and structure where possible.".

Definition extractTextFromFile (ai : TextBackend)
    (model fileData mimeType : string) : Async string :=
  match ai {| model := model;
              contents := Parts [TextPart extractTextPrompt;
                                 InlineDataPart fileData mimeType];
              config := None |} with
  | Fulfilled text => ret text
  | Throws error => handleApiError error "file text extraction"
  end.

Definition transcribePrompt : string :=
  "Transcribe the audio from the provided file accurately. The output should be the spoken text only.".

Definition transcribeAudio (ai : TextBackend)
    (model fileData mimeType : string) : Async string :=
  match ai {| model := model;
              contents := Parts [TextPart transcribePrompt;
                                 InlineDataPart fileData mimeType];
              config := None |} with
  | Fulfilled text => ret text
  | Throws error => handleApiError error "audio transcription"
  end.

Definition tutorInstruction (context language : string) : string :=
  "You are an AI Tutor named 'Synapse'. Your primary goal is to help the user understand a topic by guiding them with the Socratic method, not by giving direct answers. Use the provided context material to stay on topic. The conversation history is provided for context. When the user asks a question, respond with a thoughtful, probing question that encourages them to think critically and find the answer themselves. If the user is stuck, you can provide small hints. Keep your responses concise and conversational. Please respond in "
  ++ language ++ "." ++ nl ++ nl ++ "--- CONTEXT MATERIAL ---" ++ nl ++ context
  ++ nl ++ "---".

(** [[...history.map(msg => ({ role: msg.role, parts: [{ text: msg.content }] })),
    { role: 'user', parts: [{ text: question }] }]]. *)
Definition tutorContents (history : list Types.ChatMessage) (question : string)
  : list Content :=
  (map (λ msg, {| role := Types.role msg;
                  parts := [TextPart (Types.content msg)] |}) history
   ++ [{| role := Types.user; parts := [TextPart question] |}])%list.

Definition getTutorResponse (ai : TextBackend) (model context : string)
    (history : list Types.ChatMessage) (question language : string)
  : Async string :=
  match ai {| model := model;
              contents := Turns (tutorContents history question);
              config := Some {| systemInstruction :=
                                  tutorInstruction context language |} |} with
  | Fulfilled text => ret text
  | Throws error => handleApiError error "AI Tutor response generation"
  end.

Definition essayArgumentsPrompt (context topic language : string) : string :=
  "Based on the provided context material, play the role of a " ++ dq
  ++ "devil's advocate" ++ dq ++ " for the following essay topic/thesis: " ++ dq
  ++ topic ++ dq
  ++ ". Generate a list of potential counter-arguments, weaknesses in the likely arguments, or alternative perspectives that the author should consider addressing to make their essay more robust. Present this as a bulleted list. Respond in "
  ++ language ++ "." ++ nl ++ nl ++ "--- CONTEXT MATERIAL ---" ++ nl ++ context
  ++ nl ++ "---".

Definition generateEssayArguments (ai : TextBackend)
    (model context topic language : string) : Async string :=
  match ai {| model := model;
              contents := Prompt (essayArgumentsPrompt context topic language);
              config := None |} with
  | Fulfilled text => ret text
  | Throws error => handleApiError error "essay argument generation"
  end.

End GeminiText.

(** ** services/geminiService.ts: the study plan; the study planner page *)

Module StudyPlanner.

Import GeminiService.

Definition studyPlanSchema : Schema :=
  OBJECT
    [("title", STRING None);
     ("durationDays", INTEGER);
     ("schedule", ARRAY (OBJECT [("day", INTEGER); ("topic", STRING None);
                                 ("tasks", ARRAY (STRING None))]
                                ["day"; "topic"; "tasks"]))]
    ["title"; "durationDays"; "schedule"].

Definition studyPlanPrompt (context : string) (days : N) (language : string) : string :=
  "Analyze the provided study material and create a personalized, day-by-day study plan to cover all the content within "
  ++ pretty days
  ++ " days. The plan should break down the material into manageable topics and tasks for each day. The goal is to prepare for an exam on this content. Respond in "
  ++ language ++ "." ++ nl ++ nl ++ "--- STUDY MATERIAL ---" ++ nl ++ context
  ++ nl ++ "---".

Definition generateStudyPlan `{Platform} (ai : Backend)
    (model context : string) (days : N) (language : string) : Async Json :=
  generateWithSchema ai model (studyPlanPrompt context days language)
    studyPlanSchema "study plan generation".

(** What the page reads and writes: the application context it uses and its
    own state hooks; [studyPlan] is [JNull] where the code has [null]. *)
Record Page := {
  ingestedText : option string;
  llm : string;
  language : string;
  notifications : list AppContext.Notification;
  days : N;
  isLoading : bool;
  studyPlan : Json
}.

Definition setIsLoading (b : bool) (p : Page) : Page :=
  {| ingestedText := ingestedText p; llm := llm p; language := language p;
     notifications := notifications p; days := days p;
     isLoading := b; studyPlan := studyPlan p |}.

Definition setStudyPlan (plan : Json) (p : Page) : Page :=
  {| ingestedText := ingestedText p; llm := llm p; language := language p;
     notifications := notifications p; days := days p;
     isLoading := isLoading p; studyPlan := plan |}.

Definition addNotification (now : Z) (message : string)
    (type : AppContext.NotificationType) (p : Page) : Page :=
  {| ingestedText := ingestedText p; llm := llm p; language := language p;
     notifications := AppContext.addNotification now message type (notifications p);
     days := days p; isLoading := isLoading p; studyPlan := studyPlan p |}.

(** [handleGenerate()], run to the end of its [finally] block. *)
Definition handleGenerate `{Platform} (now : Z) (ai : Backend) (p : Page)
  : Console * Page :=
  match ingestedText p with
  | None | Some EmptyString =>
      ([], addNotification now "Please ingest your study material first."
             AppContext.info p)
  | Some text =>
      let p1 := setStudyPlan JNull (setIsLoading true p) in
      let '(log, outcome) :=
        generateStudyPlan ai (llm p) text (days p) (language p) in
      let p2 :=
        match outcome with
        | Resolved plan => setStudyPlan plan p1
        | Rejected e => addNotification now (message e) AppContext.error p1
        end in
      (log, setIsLoading false p2)
  end.

(** [{studyPlan && (... <StudyPlanDisplay plan={studyPlan} /> ...)}]: whether
    the plan display is rendered. *)
Definition rendersPlanDisplay (p : Page) : bool := truthy (studyPlan p).

End StudyPlanner.

(** ** components/features/SemanticSearch.tsx: the rest of the page *)

Module SearchPage.

Import GeminiService SemanticSearch.

Definition setQuery (q : string) (c : Component) : Component :=
  {| ingestedText := ingestedText c; llm := llm c;
     notifications := notifications c; query := q;
     isLoading := isLoading c; topK := topK c; results := results c;
     searchAttempted := searchAttempted c;
     searchHistory := searchHistory c; localStorage := localStorage c |}.

Definition localStorage_removeItem (key : string) (c : Component) : Component :=
  {| ingestedText := ingestedText c; llm := llm c;
     notifications := notifications c; query := query c;
     isLoading := isLoading c; topK := topK c; results := results c;
     searchAttempted := searchAttempted c;
     searchHistory := searchHistory c;
     localStorage := delete key (localStorage c) |}.

(** The effect run on mount, up to its call of [setSearchHistory]: what it
    writes to the console and the value it hands to [setSearchHistory], if it
    calls it. A missing entry and the empty string are falsy. *)
Definition storedHistory `{Platform} (c : Component) : Console * option Json :=
  match localStorage c !! SEARCH_HISTORY_KEY with
  | None | Some EmptyString => ([], None)
  | Some stored =>
      match JSON_parse stored with
      | Some value => ([], Some value)
      | None =>
          ([[LogText "Failed to parse search history from localStorage";
             LogSyntaxError]], None)
      end
  end.

Definition handleSearch `{Platform} (now : Z) (ai : Backend) (c : Component)
  : Console * Component :=
  runSearch now ai (query c) c.

Definition handleHistoryClick `{Platform} (now : Z) (ai : Backend)
    (term : string) (c : Component) : Console * Component :=
  runSearch now ai term (setQuery term c).

Definition clearHistory (c : Component) : Component :=
  localStorage_removeItem SEARCH_HISTORY_KEY (setSearchHistory [] c).

(** [x.length === 0] for a value from [JSON.parse]. *)
Definition length_is_zero (v : Json) : bool :=
  match v with
  | JArray items => bool_decide (items = [])
  | JString s => bool_decide (s = "")
  | JObject members =>
      match own_property members "length" with
      | Some (JNumber n) => rounds_to_zero n
      | _ => false
      end
  | _ => false
  end.

(** [searchAttempted && !isLoading && results.length === 0]: whether the
    line "No relevant snippets found for your query." is rendered. *)
Definition showsNoSnippetsLine (c : Component) : bool :=
  searchAttempted c && negb (isLoading c) && length_is_zero (results c).

(** [disabled={!query.trim() || isLoading}] of the search button. *)
Definition searchDisabled `{Platform} (c : Component) : bool :=
  bool_decide (String_trim (query c) = "") || isLoading c.

(** What the user does on the page; a search carries the time of its
    notification, if any, and the backend as it answers that search. *)
Inductive Action :=
| TypeQuery (q : string)
| Search (now : Z) (ai : Backend)
| HistoryClick (now : Z) (ai : Backend) (term : string)
| ClearHistory.

Definition act `{Platform} (a : Action) (c : Component) : Component :=
  match a with
  | TypeQuery q => setQuery q c
  | Search now ai => (handleSearch now ai c).2
  | HistoryClick now ai term => (handleHistoryClick now ai term c).2
  | ClearHistory => clearHistory c
  end.

Definition session `{Platform} (actions : list Action) (c : Component) : Component :=
  fold_left (λ c a, act a c) actions c.

(** The history and the store agree: the store holds the history as
    [JSON.stringify] writes it, or holds nothing while the history is empty. *)
Definition in_step `{Platform} (c : Component) : Prop :=
  match localStorage c !! SEARCH_HISTORY_KEY with
  | Some stored => stored = JSON_stringify (searchHistory c)
  | None => searchHistory c = []
  end.

(** No two entries of the history are equal up to case. *)
Definition case_distinct `{Platform} (history : list string) : Prop :=
  NoDup (String_toLowerCase <$> history).

(** The history as the page keeps it: at most 10 entries, no two equal up
    to case, and in step with the store. *)
Definition sound `{Platform} (c : Component) : Prop :=
  (length (searchHistory c) ≤ 10)%nat
  ∧ case_distinct (searchHistory c)
  ∧ in_step c.

End SearchPage.

(** ** App.tsx: the tab shown by [MainContent] *)

Module MainContent.

(** The state hooks of [MainContent], the active tab of the context, and the
    timeout that is pending, with the tab its callback will display. *)
Record View := {
  activeTab : Types.Tab;
  displayedTab : Types.Tab;
  animationClass : string;
  timer : option Types.Tab
}.

#[export] Instance Tab_eq_dec : EqDecision Types.Tab.
Proof. solve_decision. Defined.

(** The first render: [useState(activeTab)], [useState('fade-in')]; the
    effect finds both tabs equal and does nothing. *)
Definition mount (tab : Types.Tab) : View :=
  {| activeTab := tab; displayedTab := tab;
     animationClass := "fade-in"; timer := None |}.

(** The effect with its dependencies [[activeTab, displayedTab]], run after
    one of them changed: the clean-up of the earlier run clears its timeout,
    then the body runs. *)
Definition effect (v : View) : View :=
  if bool_decide (activeTab v ≠ displayedTab v)
  then {| activeTab := activeTab v; displayedTab := displayedTab v;
          animationClass := "fade-out"; timer := Some (activeTab v) |}
  else {| activeTab := activeTab v; displayedTab := displayedTab v;
          animationClass := animationClass v; timer := None |}.

Inductive Event :=
| SetActiveTab (tab : Types.Tab)
| TimeoutFires.

(** One event. Setting the tab that is active already changes no
    dependency; a timeout that fires sets the displayed tab to the active tab
    of the render that started it. *)
Definition step (e : Event) (v : View) : View :=
  match e with
  | SetActiveTab tab =>
      if bool_decide (tab = activeTab v) then v
      else effect {| activeTab := tab; displayedTab := displayedTab v;
                     animationClass := animationClass v; timer := timer v |}
  | TimeoutFires =>
      match timer v with
      | None => v
      | Some tab =>
          let v' := {| activeTab := activeTab v; displayedTab := tab;
                       animationClass := "fade-in"; timer := None |} in
          if bool_decide (tab = displayedTab v) then v' else effect v'
      end
  end.

Definition run (events : list Event) (v : View) : View :=
  fold_left (λ v e, step e v) events v.

End MainContent.

(** ** Further predicates and concrete pages *)

Module Further.

Import GeminiService.

(** How a call that returns text settles, for some request it sends: with
    the text of the response as it is and a silent console, or with the
    backend error of its feature after the thrown value was logged. *)
Definition text_call_settles (ai : GeminiText.TextBackend) (context : string)
    (out : Async string) : Prop :=
  ∃ request,
    match ai request with
    | Fulfilled text => out = ([], Resolved text)
    | Throws error =>
        ∃ e, out = ([[LogText ("Error during '" ++ context ++ "':"); LogThrown error]],
                    Rejected e)
             ∧ isBackendError e = true
             ∧ isMalformedResponseError e = false
             ∧ message e =
                 match error with
                 | ErrorInstance m => "API Error during " ++ context ++ ": " ++ m
                 | OtherValue _ => "An unknown error occurred during " ++ context ++ "."
                 end
    end.

(** The pending timeout, if any, is the one for the active tab, which is
    then not displayed yet; with none pending the active tab is displayed. *)
Definition coherent (v : MainContent.View) : Prop :=
  match MainContent.timer v with
  | None => MainContent.displayedTab v = MainContent.activeTab v
  | Some tab => tab = MainContent.activeTab v
                ∧ MainContent.activeTab v ≠ MainContent.displayedTab v
  end.

(** [{"snippets":["Photosynthesis converts light","chemical energy"]}] *)
Definition twoSnippetsText : string :=
  "{" ++ Examples.lit "snippets" ++ ":[" ++ Examples.lit "Photosynthesis converts light"
  ++ "," ++ Examples.lit "chemical energy" ++ "]}".

(** The search page before any material was ingested. *)
Definition emptyPage : SemanticSearch.Component :=
  {| SemanticSearch.ingestedText := None;
     SemanticSearch.llm := "gemini-2.5-flash";
     SemanticSearch.notifications := [];
     SemanticSearch.query := "light";
     SemanticSearch.isLoading := false;
     SemanticSearch.topK := 4;
     SemanticSearch.results := JArray [];
     SemanticSearch.searchAttempted := false;
     SemanticSearch.searchHistory := [];
     SemanticSearch.localStorage := ∅ |}.

(** The study planner showing a plan made earlier. *)
Definition plannerPage : StudyPlanner.Page :=
  {| StudyPlanner.ingestedText := Some Examples.notes;
     StudyPlanner.llm := "gemini-2.5-flash";
     StudyPlanner.language := "English";
     StudyPlanner.notifications := [];
     StudyPlanner.days := 7;
     StudyPlanner.isLoading := false;
     StudyPlanner.studyPlan :=
       JObject [("title", JString "Photosynthesis in a week");
                ("durationDays", JNumber (mkNumber false 7 0));
                ("schedule", JArray [])] |}.

Definition tutorHistory : list Types.ChatMessage :=
  [{| Types.role := Types.user; Types.content := "What is chlorophyll?" |};
   {| Types.role := Types.model; Types.content := "What colour are most leaves?" |}].

End Further.

(** * Properties *)

Import GeminiService.

(** ** The promise of [generateWithSchema] *)

Section Decoding.

Context `{Platform}.
Variables (ai : Backend) (model prompt : string) (schema : Schema).
Variable context : string.

Lemma generateWithSchema_decoded text value :
  ai (structuredRequest model prompt schema) = Fulfilled text →
  JSON_parse (String_trim text) = Some value →
  generateWithSchema ai model prompt schema context = ([], Resolved value).
Proof.
  intros Hreply Hparse. unfold generateWithSchema.
  by rewrite Hreply, Hparse.
Qed.

Lemma generateWithSchema_malformed text :
  ai (structuredRequest model prompt schema) = Fulfilled text →
  JSON_parse (String_trim text) = None →
  generateWithSchema ai model prompt schema context =
    ([[LogText ("JSON parsing error during '" ++ context ++ "':"); LogSyntaxError];
      [LogText "Received malformed text from API:"; LogText (String_trim text)]],
     Rejected (Error ("The API returned an invalid format for " ++ context
                      ++ ". Please try again."))).
Proof.
  intros Hreply Hparse. unfold generateWithSchema.
  by rewrite Hreply, Hparse.
Qed.

Lemma generateWithSchema_thrown error :
  ai (structuredRequest model prompt schema) = Throws error →
  generateWithSchema ai model prompt schema context =
    handleApiError error context.
Proof. intros Hreply. unfold generateWithSchema. by rewrite Hreply. Qed.

End Decoding.

(** What an [await] does with a settled promise. *)
Lemma await_resolved {A B} (a : A) (k : A → Async B) :
  (([], Resolved a) : Async A) ≫= k = k a.
Proof. unfold mbind, Async_bind, bind. simpl. by destruct (k a). Qed.

Lemma await_rejected {A B} log e (k : A → Async B) :
  ((log, Rejected e) : Async A) ≫= k = (log, Rejected e).
Proof. done. Qed.

(** A rejection of the structured call is the rejection of the entry point
    that awaits it. *)
Lemma entry_points_pass_rejections `{Platform} (ai : Backend)
    (model text topic query language : string) (difficulty : Difficulty)
    (topK : N) (log : Console) (e : JsError) :
  (generateWithSchema ai model (flashcardPrompt text language) flashcardSchema
     "flashcard generation" = (log, Rejected e) →
   generateFlashcards ai model text language = (log, Rejected e))
  ∧ (generateWithSchema ai model (mcqPrompt text language difficulty) mcqSchema
       "MCQ generation" = (log, Rejected e) →
     generateMCQs ai model text language difficulty = (log, Rejected e))
  ∧ (generateWithSchema ai model (searchPrompt text query topK) searchSchema
       "semantic search" = (log, Rejected e) →
     performSemanticSearch ai model text query topK = (log, Rejected e))
  ∧ (generateWithSchema ai model (conceptMapPrompt text language) conceptMapSchema
       "concept map generation" = (log, Rejected e) →
     generateConceptMapData ai model text language = (log, Rejected e))
  ∧ (generateWithSchema ai model (conceptMapTopicPrompt topic language)
       conceptMapSchema ("concept map generation for topic " ++ dq ++ topic ++ dq)
       = (log, Rejected e) →
     generateConceptMapForTopic ai model topic language = (log, Rejected e)).
Proof.
  unfold generateFlashcards, generateMCQs, performSemanticSearch,
    generateConceptMapData, generateConceptMapForTopic.
  repeat split; intros ->; apply await_rejected.
Qed.

(** ** The reference host's [trim] *)

Lemma trim_start_split s :
  ∃ l, s = l ++ Latin1.trim_start s ∧ Latin1.all_white l = true.
Proof.
  induction s as [|c rest (l & Hsplit & Hwhite)]; [by exists EmptyString|].
  cbn [Latin1.trim_start].
  destruct (Latin1.is_white_space c) eqn:Hc; [|by exists EmptyString].
  exists (String c l). split.
  - change (String c l ++ Latin1.trim_start rest)
      with (String c (l ++ Latin1.trim_start rest)).
    by f_equal.
  - cbn. by rewrite Hc.
Qed.

Lemma trim_end_split s :
  ∃ r, s = Latin1.trim_end s ++ r ∧ Latin1.all_white r = true.
Proof.
  induction s as [|c rest (r & Hsplit & Hwhite)]; [by exists EmptyString|].
  cbn [Latin1.trim_end].
  destruct (Latin1.trim_end rest) as [|d kept].
  - change (rest = r) in Hsplit. subst r.
    destruct (Latin1.is_white_space c) eqn:Hc.
    + exists (String c rest). cbn. by rewrite Hc.
    + by exists rest.
  - exists r. split; [|done].
    change (String c (String d kept) ++ r) with (String c (String d kept ++ r)).
    by f_equal.
Qed.

Lemma trim_start_starts s : Latin1.starts_white (Latin1.trim_start s) = false.
Proof.
  induction s as [|c rest IH]; [done|]. cbn [Latin1.trim_start].
  by destruct (Latin1.is_white_space c) eqn:Hc.
Qed.

Lemma trim_end_starts s :
  Latin1.starts_white s = false → Latin1.starts_white (Latin1.trim_end s) = false.
Proof.
  destruct s as [|c rest]; [done|]. cbn. intros Hc.
  destruct (Latin1.trim_end rest); by rewrite ?Hc.
Qed.

Lemma trim_end_ends s : Latin1.ends_white (Latin1.trim_end s) = false.
Proof.
  induction s as [|c rest IH]; [done|]. cbn [Latin1.trim_end].
  destruct (Latin1.trim_end rest) as [|d kept].
  - by destruct (Latin1.is_white_space c) eqn:Hc.
  - done.
Qed.

(** [trim] takes white space, and nothing else, off both ends, and leaves
    none at either end. *)
Lemma trim_strips s :
  ∃ l r, s = l ++ Latin1.trim s ++ r
         ∧ Latin1.all_white l = true ∧ Latin1.all_white r = true
         ∧ Latin1.starts_white (Latin1.trim s) = false
         ∧ Latin1.ends_white (Latin1.trim s) = false.
Proof.
  destruct (trim_start_split s) as (l & Hl & Hwl).
  destruct (trim_end_split (Latin1.trim_start s)) as (r & Hr & Hwr).
  exists l, r. unfold Latin1.trim. split; [by rewrite <- Hr|].
  split; [done|]. split; [done|]. split.
  - apply trim_end_starts, trim_start_starts.
  - apply trim_end_ends.
Qed.

(** ** The entry points on a decoded response *)

Section EntryPoints.

Context `{Platform}.
Variable ai : Backend.

Lemma generateFlashcards_decoded model text language response decoded :
  ai (structuredRequest model (flashcardPrompt text language) flashcardSchema)
    = Fulfilled response →
  JSON_parse (String_trim response) = Some decoded →
  generateFlashcards ai model text language =
    ([], Resolved (if Array_isArray decoded then decoded
                   else or_default (optional_get decoded "flashcards") (JArray []))).
Proof.
  intros Hreply Hparse. unfold generateFlashcards.
  rewrite (generateWithSchema_decoded _ _ _ _ _ _ _ Hreply Hparse).
  by rewrite await_resolved.
Qed.

Lemma generateMCQs_decoded model text language difficulty response decoded :
  ai (structuredRequest model (mcqPrompt text language difficulty) mcqSchema)
    = Fulfilled response →
  JSON_parse (String_trim response) = Some decoded →
  generateMCQs ai model text language difficulty =
    ([], Resolved (if Array_isArray decoded then decoded
                   else or_default (optional_get decoded "mcqs") (JArray []))).
Proof.
  intros Hreply Hparse. unfold generateMCQs.
  rewrite (generateWithSchema_decoded _ _ _ _ _ _ _ Hreply Hparse).
  by rewrite await_resolved.
Qed.

Lemma performSemanticSearch_decoded model text query topK response decoded :
  ai (structuredRequest model (searchPrompt text query topK) searchSchema)
    = Fulfilled response →
  JSON_parse (String_trim response) = Some decoded →
  performSemanticSearch ai model text query topK =
    ([], Resolved (or_default (optional_get decoded "snippets") (JArray []))).
Proof.
  intros Hreply Hparse. unfold performSemanticSearch.
  rewrite (generateWithSchema_decoded _ _ _ _ _ _ _ Hreply Hparse).
  by rewrite await_resolved.
Qed.

Lemma generateConceptMapData_decoded model text language response decoded :
  ai (structuredRequest model (conceptMapPrompt text language) conceptMapSchema)
    = Fulfilled response →
  JSON_parse (String_trim response) = Some decoded →
  generateConceptMapData ai model text language =
    ([], Resolved (if truthy decoded then decoded else emptyConceptMap)).
Proof.
  intros Hreply Hparse. unfold generateConceptMapData.
  rewrite (generateWithSchema_decoded _ _ _ _ _ _ _ Hreply Hparse).
  by rewrite await_resolved.
Qed.

Lemma generateConceptMapForTopic_decoded model topic language response decoded :
  ai (structuredRequest model (conceptMapTopicPrompt topic language) conceptMapSchema)
    = Fulfilled response →
  JSON_parse (String_trim response) = Some decoded →
  generateConceptMapForTopic ai model topic language =
    ([], Resolved (if truthy decoded then decoded else emptyConceptMap)).
Proof.
  intros Hreply Hparse. unfold generateConceptMapForTopic.
  rewrite (generateWithSchema_decoded _ _ _ _ _ _ _ Hreply Hparse).
  by rewrite await_resolved.
Qed.

End EntryPoints.

(** The value of [Array.isArray(result) ? result : (result?.name || [])]. *)
Lemma tolerant_unwrap_intro name decoded :
  Stated.tolerant_unwrap name decoded
    (if Array_isArray decoded then decoded
     else or_default (optional_get decoded name) (JArray [])).
Proof.
  repeat split.
  - by intros items ->.
  - intros v -> Hget Htruthy. unfold or_default. by rewrite Hget, Htruthy.
  - intros -> Hfalsy. unfold or_default.
    destruct (optional_get decoded name) as [v|] eqn:Hget; [|done].
    by rewrite (Hfalsy v eq_refl).
Qed.

Lemma or_default_absent v name d :
  optional_get v name = None ∨ v = JNull → or_default (optional_get v name) d = d.
Proof. by intros [-> | ->]. Qed.

(** ** Tolerant decoding of lists *)

(** C1, as amended. For flashcard and MCQ generation, when the text of the
    response decodes to a value: an array is returned directly; a value that
    is no array but has a truthy value under the list's key ([flashcards],
    [mcqs]) yields that value, whatever other keys there are; every other
    value (a primitive, [null], an object without the key or with a falsy
    value under it) yields the empty array and is not returned as it is. *)
Theorem list_generation_unwraps_tolerantly `{Platform} (ai : Backend)
    (model text language : string) (difficulty : Difficulty)
    (response : string) (decoded : Json) :
  JSON_parse (String_trim response) = Some decoded →
  (ai (structuredRequest model (flashcardPrompt text language) flashcardSchema)
     = Fulfilled response →
   ∃ result, generateFlashcards ai model text language = ([], Resolved result)
             ∧ Stated.tolerant_unwrap "flashcards" decoded result)
  ∧ (ai (structuredRequest model (mcqPrompt text language difficulty) mcqSchema)
       = Fulfilled response →
     ∃ result, generateMCQs ai model text language difficulty = ([], Resolved result)
               ∧ Stated.tolerant_unwrap "mcqs" decoded result).
Proof.
  intros Hparse. split; intros Hreply; eexists; split.
  - by apply generateFlashcards_decoded with (response := response).
  - apply tolerant_unwrap_intro.
  - by apply generateMCQs_decoded with (response := response).
  - apply tolerant_unwrap_intro.
Qed.

Lemma list_generation_unwraps_tolerantly_witness :
  let ai := Examples.replies Examples.wrappedFlashcardText in
  let decoded := JObject [("flashcards", JArray [Examples.oneFlashcard])] in
  Latin1.parse (Latin1.trim Examples.wrappedFlashcardText) = Some decoded
  ∧ (∃ result,
       generateFlashcards (H := Latin1.host) ai "gemini-2.5-flash" Examples.notes "English"
         = ([], Resolved result)
       ∧ Stated.tolerant_unwrap "flashcards" decoded result).
Proof.
  intros ai decoded.
  assert (Hparse : Latin1.parse (Latin1.trim Examples.wrappedFlashcardText) = Some decoded)
    by (vm_compute; reflexivity).
  split; [exact Hparse|].
  exact (proj1 (list_generation_unwraps_tolerantly (H := Latin1.host) ai
                  "gemini-2.5-flash" Examples.notes "English" Easy
                  Examples.wrappedFlashcardText decoded Hparse) eq_refl).
Defined.

(** C1 as stated fails: the text [42] decodes to a number, which is neither
    an array nor a wrapper object, and flashcard generation answers the empty
    array instead of the number. *)
Lemma generateFlashcards_number_not_returned_as_is :
  let ai := Examples.replies "42" in
  let decoded := JNumber (mkNumber false 42 0) in
  Latin1.parse (Latin1.trim "42") = Some decoded
  ∧ (generateFlashcards (H := Latin1.host) ai "gemini-2.5-flash" Examples.notes "English").2
      = Resolved (JArray [])
  ∧ (generateFlashcards (H := Latin1.host) ai "gemini-2.5-flash" Examples.notes "English").2
      ≠ Resolved (Shape.unwrap_as_specified "flashcards" decoded).
Proof.
  intros ai decoded. split; [|split].
  - vm_compute. reflexivity.
  - vm_compute. reflexivity.
  - vm_compute. discriminate.
Qed.

(** ** The lenient empty default *)

(** C4. For flashcard generation, MCQ generation and semantic search, when
    the decoded response is not an array and is [null] or lacks the expected
    field ([flashcards], [mcqs], [snippets]), the operation resolves with the
    empty array and writes nothing to the console. *)
Theorem absent_field_yields_empty_collection `{Platform} (ai : Backend)
    (model text language query : string) (difficulty : Difficulty) (topK : N)
    (response : string) (decoded : Json) :
  JSON_parse (String_trim response) = Some decoded →
  Array_isArray decoded = false →
  (ai (structuredRequest model (flashcardPrompt text language) flashcardSchema)
     = Fulfilled response →
   optional_get decoded "flashcards" = None ∨ decoded = JNull →
   generateFlashcards ai model text language = ([], Resolved (JArray [])))
  ∧ (ai (structuredRequest model (mcqPrompt text language difficulty) mcqSchema)
       = Fulfilled response →
     optional_get decoded "mcqs" = None ∨ decoded = JNull →
     generateMCQs ai model text language difficulty = ([], Resolved (JArray [])))
  ∧ (ai (structuredRequest model (searchPrompt text query topK) searchSchema)
       = Fulfilled response →
     optional_get decoded "snippets" = None ∨ decoded = JNull →
     performSemanticSearch ai model text query topK = ([], Resolved (JArray []))).
Proof.
  intros Hparse Hnot_array. repeat split; intros Hreply Habsent.
  - rewrite (generateFlashcards_decoded _ _ _ _ _ _ Hreply Hparse), Hnot_array.
    by rewrite or_default_absent.
  - rewrite (generateMCQs_decoded _ _ _ _ _ _ _ Hreply Hparse), Hnot_array.
    by rewrite or_default_absent.
  - rewrite (performSemanticSearch_decoded _ _ _ _ _ _ _ Hreply Hparse).
    by rewrite or_default_absent.
Qed.

Lemma absent_field_yields_empty_collection_witness :
  let ai := Examples.replies "{}" in
  Latin1.parse (Latin1.trim "{}") = Some (JObject [])
  ∧ generateFlashcards (H := Latin1.host) ai "gemini-2.5-flash" Examples.notes "English"
      = ([], Resolved (JArray []))
  ∧ generateMCQs (H := Latin1.host) ai "gemini-2.5-flash" Examples.notes "English" Medium
      = ([], Resolved (JArray []))
  ∧ performSemanticSearch (H := Latin1.host) ai "gemini-2.5-flash" Examples.notes "light" 4
      = ([], Resolved (JArray [])).
Proof.
  intros ai.
  assert (Hparse : Latin1.parse (Latin1.trim "{}") = Some (JObject []))
    by (vm_compute; reflexivity).
  split; [exact Hparse|].
  destruct (absent_field_yields_empty_collection (H := Latin1.host) ai
              "gemini-2.5-flash" Examples.notes "English" "light" Medium 4
              "{}" (JObject []) Hparse eq_refl) as (Hcards & Hmcqs & Hsearch).
  split; [|split].
  - exact (Hcards eq_refl (or_introl eq_refl)).
  - exact (Hmcqs eq_refl (or_introl eq_refl)).
  - exact (Hsearch eq_refl (or_introl eq_refl)).
Defined.

(** C10. For both concept map operations, when the text of the response
    decodes to a falsy value ([null], [false], zero or the empty string), the
    operation resolves with the empty concept map [{nodes: [], links: []}]. *)
Theorem falsy_concept_map_yields_empty_map `{Platform} (ai : Backend)
    (model text topic language : string) (response : string) (decoded : Json) :
  JSON_parse (String_trim response) = Some decoded →
  truthy decoded = false →
  (ai (structuredRequest model (conceptMapPrompt text language) conceptMapSchema)
     = Fulfilled response →
   generateConceptMapData ai model text language = ([], Resolved emptyConceptMap))
  ∧ (ai (structuredRequest model (conceptMapTopicPrompt topic language) conceptMapSchema)
       = Fulfilled response →
     generateConceptMapForTopic ai model topic language
       = ([], Resolved emptyConceptMap)).
Proof.
  intros Hparse Hfalsy. split; intros Hreply.
  - by rewrite (generateConceptMapData_decoded _ _ _ _ _ _ Hreply Hparse), Hfalsy.
  - by rewrite (generateConceptMapForTopic_decoded _ _ _ _ _ _ Hreply Hparse), Hfalsy.
Qed.

Lemma falsy_concept_map_yields_empty_map_witness :
  let ai := Examples.replies "null" in
  Latin1.parse (Latin1.trim "null") = Some JNull
  ∧ truthy JNull = false
  ∧ generateConceptMapData (H := Latin1.host) ai "gemini-2.5-flash" Examples.notes "English"
      = ([], Resolved (JObject [("nodes", JArray []); ("links", JArray [])]))
  ∧ generateConceptMapForTopic (H := Latin1.host) ai "gemini-2.5-flash" "Photosynthesis" "English"
      = ([], Resolved (JObject [("nodes", JArray []); ("links", JArray [])])).
Proof.
  intros ai.
  assert (Hparse : Latin1.parse (Latin1.trim "null") = Some JNull)
    by (vm_compute; reflexivity).
  split; [exact Hparse|]. split; [reflexivity|].
  destruct (falsy_concept_map_yields_empty_map (H := Latin1.host) ai
              "gemini-2.5-flash" Examples.notes "Photosynthesis" "English"
              "null" JNull Hparse eq_refl) as (Hdata & Htopic).
  split; [exact (Hdata eq_refl) | exact (Htopic eq_refl)].
Defined.

(** ** Failures of a structured call *)

Lemma prefix_append p s : String.prefix p (p ++ s) = true.
Proof.
  induction p as [|a p IH]; simpl.
  - by destruct s.
  - by destruct (ascii_dec a a).
Qed.

Lemma backend_message_kind context error :
  let e := Error match error with
                 | ErrorInstance m => "API Error during " ++ context ++ ": " ++ m
                 | OtherValue _ => "An unknown error occurred during " ++ context ++ "."
                 end in
  isBackendError e = true ∧ isMalformedResponseError e = false.
Proof.
  destruct error as [m|v]; unfold isBackendError, isMalformedResponseError;
    cbn [message]; rewrite prefix_append; by split.
Qed.

Lemma malformed_message_kind context :
  let e := Error ("The API returned an invalid format for " ++ context
                  ++ ". Please try again.") in
  isMalformedResponseError e = true ∧ isBackendError e = false.
Proof.
  unfold isBackendError, isMalformedResponseError; cbn [message].
  by rewrite prefix_append.
Qed.

Lemma generateWithSchema_thrown_outcome `{Platform} ai model prompt schema context error :
  ai (structuredRequest model prompt schema) = Throws error →
  generateWithSchema ai model prompt schema context =
    ([[LogText ("Error during '" ++ context ++ "':"); LogThrown error]],
     Rejected (Error match error with
                     | ErrorInstance m => "API Error during " ++ context ++ ": " ++ m
                     | OtherValue _ => "An unknown error occurred during " ++ context ++ "."
                     end)).
Proof.
  intros Hreply. rewrite (generateWithSchema_thrown _ _ _ _ _ _ Hreply).
  by destruct error.
Qed.

(** C2, as amended. A structured call either resolves with the value that
    the trimmed text of the response decodes to, whole and whatever its shape
    (the client does not compare it with the schema), or rejects with an
    error of exactly one of the two kinds. *)
Theorem generateWithSchema_decodes_or_fails_typed `{Platform} (ai : Backend)
    (model prompt : string) (schema : Schema) (context : string) :
  let out := (generateWithSchema ai model prompt schema context).2 in
  (∃ text value,
      ai (structuredRequest model prompt schema) = Fulfilled text
      ∧ JSON_parse (String_trim text) = Some value
      ∧ out = Resolved value)
  ∨ (∃ e, out = Rejected e
          ∧ isBackendError e = true ∧ isMalformedResponseError e = false)
  ∨ (∃ e, out = Rejected e
          ∧ isMalformedResponseError e = true ∧ isBackendError e = false).
Proof.
  intros out. subst out.
  destruct (ai (structuredRequest model prompt schema)) as [text|error] eqn:Hreply.
  - destruct (JSON_parse (String_trim text)) as [value|] eqn:Hparse.
    + left. exists text, value.
      by rewrite (generateWithSchema_decoded _ _ _ _ _ _ _ Hreply Hparse).
    + right; right.
      rewrite (generateWithSchema_malformed _ _ _ _ _ _ Hreply Hparse).
      eexists. split; [done|]. apply malformed_message_kind.
  - right; left.
    rewrite (generateWithSchema_thrown_outcome _ _ _ _ _ _ Hreply).
    eexists. split; [done|]. apply backend_message_kind.
Qed.

(** C2 as stated fails: asked for an array of flashcards, a backend that
    answers with the array under a [flashcards] key makes the call resolve
    with an object, which does not have the declared shape. *)
Lemma generateWithSchema_returns_value_off_schema :
  ¬ Stated.shape_safe (H := Latin1.host)
      (Examples.replies Examples.wrappedFlashcardText) "gemini-2.5-flash"
      (flashcardPrompt Examples.notes "English") flashcardSchema
      "flashcard generation".
Proof. unfold Stated.shape_safe. vm_compute. discriminate. Qed.

(** C3. When the backend call succeeds, the text of the response is trimmed
    and then decoded, and the decoded value is the result; when the decoding
    fails, the call rejects with the malformed-response error, whose message
    is made of the name of the calling feature alone, and the offending text
    is written to the console. *)
Theorem generateWithSchema_trims_then_decodes `{Platform} (ai : Backend)
    (model prompt : string) (schema : Schema) (context text : string) :
  ai (structuredRequest model prompt schema) = Fulfilled text →
  (∀ value, JSON_parse (String_trim text) = Some value →
            generateWithSchema ai model prompt schema context = ([], Resolved value))
  ∧ (JSON_parse (String_trim text) = None →
     ∃ log e,
       generateWithSchema ai model prompt schema context = (log, Rejected e)
       ∧ isMalformedResponseError e = true
       ∧ message e = "The API returned an invalid format for " ++ context
                     ++ ". Please try again."
       ∧ [LogText "Received malformed text from API:"; LogText (String_trim text)]
           ∈ log).
Proof.
  intros Hreply. split.
  - intros value Hparse. by apply generateWithSchema_decoded with (text := text).
  - intros Hparse. do 2 eexists. split; [|split; [|split]].
    + by apply generateWithSchema_malformed.
    + apply malformed_message_kind.
    + done.
    + set_solver.
Qed.

Lemma generateWithSchema_trims_then_decodes_witness :
  let ai := Examples.replies " [1, 2 " in
  ai (structuredRequest "gemini-2.5-flash" "List two numbers." (ARRAY INTEGER))
    = Fulfilled " [1, 2 "
  ∧ Latin1.parse (Latin1.trim " [1, 2 ") = None
  ∧ ∃ log e,
      generateWithSchema (H := Latin1.host) ai "gemini-2.5-flash" "List two numbers."
        (ARRAY INTEGER) "number listing" = (log, Rejected e)
      ∧ isMalformedResponseError e = true
      ∧ message e = "The API returned an invalid format for number listing. Please try again."
      ∧ [LogText "Received malformed text from API:"; LogText "[1, 2"] ∈ log.
Proof.
  intros ai.
  assert (Hparse : Latin1.parse (Latin1.trim " [1, 2 ") = None)
    by (vm_compute; reflexivity).
  split; [reflexivity|]. split; [exact Hparse|].
  exact (proj2 (generateWithSchema_trims_then_decodes (H := Latin1.host) ai
                  "gemini-2.5-flash" "List two numbers." (ARRAY INTEGER)
                  "number listing" " [1, 2 " eq_refl) Hparse).
Defined.

(** C7, as amended. When the backend call fails, the call rejects with a
    backend error that names the feature: [API Error during <context>:
    <message>] when the thrown value is an [Error], wrapping its message, and
    [An unknown error occurred during <context>.] for any other thrown value;
    the thrown value is written to the console. When the call succeeds and
    the decoding fails, the error is the malformed-response error, which no
    backend error is. An entry point, which awaits the call and then only
    returns, passes either error on to its caller as it is. *)
Theorem failures_are_told_apart `{Platform} (ai : Backend)
    (model prompt : string) (schema : Schema) (context : string) :
  (∀ error, ai (structuredRequest model prompt schema) = Throws error →
     ∃ log e,
       generateWithSchema ai model prompt schema context = (log, Rejected e)
       ∧ isBackendError e = true ∧ isMalformedResponseError e = false
       ∧ message e = match error with
                     | ErrorInstance m => "API Error during " ++ context ++ ": " ++ m
                     | OtherValue _ => "An unknown error occurred during " ++ context ++ "."
                     end
       ∧ [LogText ("Error during '" ++ context ++ "':"); LogThrown error] ∈ log)
  ∧ (∀ text, ai (structuredRequest model prompt schema) = Fulfilled text →
     JSON_parse (String_trim text) = None →
     ∃ log e,
       generateWithSchema ai model prompt schema context = (log, Rejected e)
       ∧ isMalformedResponseError e = true ∧ isBackendError e = false)
  ∧ (∀ log e (after : Json → Json),
       generateWithSchema ai model prompt schema context = (log, Rejected e) →
       (result ← generateWithSchema ai model prompt schema context;
        ret (after result)) = (log, Rejected e)).
Proof.
  split; [|split].
  - intros error Hreply. do 2 eexists. split; [|split; [|split; [|split]]].
    + by apply generateWithSchema_thrown_outcome.
    + apply backend_message_kind.
    + apply backend_message_kind.
    + done.
    + set_solver.
  - intros text Hreply Hparse. do 2 eexists. split.
    + by apply generateWithSchema_malformed.
    + apply malformed_message_kind.
  - by intros log e after ->.
Qed.

Lemma failures_are_told_apart_witness :
  let ai := Examples.fails (ErrorInstance "quota exceeded") in
  ∃ log e,
    generateFlashcards (H := Latin1.host) ai "gemini-2.5-flash" Examples.notes "English"
      = (log, Rejected e)
    ∧ isBackendError e = true ∧ isMalformedResponseError e = false
    ∧ message e = "API Error during flashcard generation: quota exceeded"
    ∧ [LogText "Error during 'flashcard generation':";
       LogThrown (ErrorInstance "quota exceeded")] ∈ log.
Proof.
  intros ai.
  destruct (failures_are_told_apart (H := Latin1.host) ai "gemini-2.5-flash"
              (flashcardPrompt Examples.notes "English") flashcardSchema
              "flashcard generation") as (Hthrown & _ & Hpass).
  destruct (Hthrown (ErrorInstance "quota exceeded") eq_refl)
    as (log & e & Hcall & Hkind).
  exists log, e. split; [|exact Hkind].
  exact (Hpass log e _ Hcall).
Defined.

(** C7 as stated fails: when the call throws a plain object that carries a
    message but is no [Error], the error that reaches the caller says only
    that an unknown error occurred; the thrown message is not in it. *)
Lemma backend_failure_drops_message_of_non_Error :
  ∃ e,
    (generateFlashcards (H := Latin1.host)
       (Examples.fails Examples.plainObjectWithMessage)
       "gemini-2.5-flash" Examples.notes "English").2 = Rejected e
    ∧ message e = "An unknown error occurred during flashcard generation."
    ∧ Stated.wraps "quota exceeded" (message e) = false.
Proof.
  eexists. split; [vm_compute; reflexivity|]. split; vm_compute; reflexivity.
Qed.

(** ** MCQs *)

(** C8, as amended. Every MCQ that MCQ generation returns is, unchanged, an
    item of the array that the text of the response decodes to, or of the
    array under its [mcqs] key; the client neither checks nor enforces the
    number of options or that one of them equals [correctAnswer]. *)
Theorem returned_mcqs_are_those_decoded `{Platform} (ai : Backend)
    (model text language : string) (difficulty : Difficulty)
    (items : list Json) (mcq : Json) :
  (generateMCQs ai model text language difficulty).2 = Resolved (JArray items) →
  mcq ∈ items →
  ∃ response decoded,
    ai (structuredRequest model (mcqPrompt text language difficulty) mcqSchema)
      = Fulfilled response
    ∧ JSON_parse (String_trim response) = Some decoded
    ∧ (decoded = JArray items
       ∨ (Array_isArray decoded = false
          ∧ optional_get decoded "mcqs" = Some (JArray items))).
Proof.
  intros Hout Hin.
  destruct (ai (structuredRequest model (mcqPrompt text language difficulty) mcqSchema))
    as [response|error] eqn:Hreply.
  - destruct (JSON_parse (String_trim response)) as [decoded|] eqn:Hparse.
    + exists response, decoded. split; [done|]. split; [done|].
      rewrite (generateMCQs_decoded _ _ _ _ _ _ _ Hreply Hparse) in Hout.
      simpl in Hout.
      destruct (Array_isArray decoded) eqn:Harray.
      * left. congruence.
      * right. split; [done|]. unfold or_default in Hout.
        destruct (optional_get decoded "mcqs") as [v|].
        -- destruct (truthy v); [congruence|].
           assert (items = []) as -> by congruence. by apply elem_of_nil in Hin.
        -- assert (items = []) as -> by congruence. by apply elem_of_nil in Hin.
    + unfold generateMCQs in Hout.
      rewrite (generateWithSchema_malformed _ _ _ _ _ _ Hreply Hparse) in Hout.
      discriminate Hout.
  - unfold generateMCQs in Hout.
    rewrite (generateWithSchema_thrown_outcome _ _ _ _ _ _ Hreply) in Hout.
    discriminate Hout.
Qed.

Lemma returned_mcqs_are_those_decoded_witness :
  let ai := Examples.replies Examples.fourOptionMcqText in
  (generateMCQs (H := Latin1.host) ai "gemini-2.5-flash" Examples.notes "English" Hard).2
    = Resolved (JArray [Examples.fourOptionMcq])
  ∧ Examples.fourOptionMcq ∈ [Examples.fourOptionMcq]
  ∧ ∃ response decoded,
      ai (structuredRequest "gemini-2.5-flash" (mcqPrompt Examples.notes "English" Hard)
            mcqSchema) = Fulfilled response
      ∧ Latin1.parse (Latin1.trim response) = Some decoded
      ∧ (decoded = JArray [Examples.fourOptionMcq]
         ∨ (Array_isArray decoded = false
            ∧ optional_get decoded "mcqs" = Some (JArray [Examples.fourOptionMcq]))).
Proof.
  intros ai.
  assert (Hout : (generateMCQs (H := Latin1.host) ai "gemini-2.5-flash"
                    Examples.notes "English" Hard).2
                 = Resolved (JArray [Examples.fourOptionMcq]))
    by (vm_compute; reflexivity).
  assert (Hin : Examples.fourOptionMcq ∈ [Examples.fourOptionMcq])
    by apply list_elem_of_here.
  split; [exact Hout|]. split; [exact Hin|].
  exact (returned_mcqs_are_those_decoded (H := Latin1.host) ai "gemini-2.5-flash"
           Examples.notes "English" Hard [Examples.fourOptionMcq]
           Examples.fourOptionMcq Hout Hin).
Defined.

(** C8 as stated fails: a backend that answers with an MCQ of two options,
    neither equal to the correct answer, has it returned as it is. *)
Lemma generateMCQs_returns_ill_formed_mcq :
  ¬ Stated.returns_well_formed_mcqs
      (generateMCQs (H := Latin1.host) (Examples.replies Examples.twoOptionMcqText)
         "gemini-2.5-flash" Examples.notes "English" Medium).2.
Proof.
  intros Hclaim.
  specialize (Hclaim [Examples.twoOptionMcq] Examples.twoOptionMcq).
  assert (Hbad : Shape.well_formed_mcq Examples.twoOptionMcq = true).
  { apply Hclaim; [vm_compute; reflexivity | apply list_elem_of_here]. }
  vm_compute in Hbad. discriminate Hbad.
Qed.

(** ** The search history *)

Import SemanticSearch.

Lemma updatedHistory_cons `{Platform} newQuery history :
  updatedHistory newQuery history =
    newQuery :: take 9 (filter (λ item, String_toLowerCase item
                                        ≠ String_toLowerCase newQuery) history).
Proof. done. Qed.

Lemma updateSearchHistory_history `{Platform} newQuery c :
  searchHistory (updateSearchHistory newQuery c)
    = updatedHistory newQuery (searchHistory c).
Proof. done. Qed.

Lemma updateSearchHistory_store `{Platform} newQuery c :
  localStorage (updateSearchHistory newQuery c)
    = <[SEARCH_HISTORY_KEY := JSON_stringify (updatedHistory newQuery (searchHistory c))]>
        (localStorage c).
Proof. done. Qed.

(** C5. After a query is inserted, the history starts with that query; no
    later entry equals it up to case; the later entries are entries of the
    old history in their old order (the first nine of those that differ from
    the query up to case); and the history has at most 10 entries. The same
    list is what the store holds under the history key. *)
Theorem updateSearchHistory_front_unique_ordered_bounded `{Platform}
    (newQuery : string) (c : Component) :
  let before := searchHistory c in
  let after := searchHistory (updateSearchHistory newQuery c) in
  ∃ rest,
    after = newQuery :: rest
    ∧ Forall (λ item, String_toLowerCase item ≠ String_toLowerCase newQuery) rest
    ∧ rest `sublist_of` before
    ∧ rest = take 9 (filter (λ item, String_toLowerCase item
                                     ≠ String_toLowerCase newQuery) before)
    ∧ (length after ≤ 10)%nat
    ∧ localStorage (updateSearchHistory newQuery c) !! SEARCH_HISTORY_KEY
        = Some (JSON_stringify after).
Proof.
  intros before after. subst before after.
  rewrite updateSearchHistory_history, updatedHistory_cons.
  eexists. split; [reflexivity|]. split; [|split; [|split; [|split]]].
  - apply Forall_take, Forall_forall. intros item Hin.
    by apply list_elem_of_filter in Hin as [Hne _].
  - etrans; [apply sublist_take | apply sublist_filter].
  - reflexivity.
  - cbn [length]. rewrite length_take. lia.
  - rewrite updateSearchHistory_store, updatedHistory_cons.
    apply lookup_insert_eq.
Qed.

(** ** A failed search *)

(** C6, as amended. When the search call fails, [runSearch] surfaces the
    message of the error as an error notification, leaves the results
    cleared and ends the loading state; the query was put at the front of the
    search history, in the component and in the store, before the call was
    made, and stays there. *)
Theorem failed_search_notifies_after_history_update `{Platform} (now : Z)
    (ai : Backend) (currentQuery : string) (c : Component)
    (text : string) (log : Console) (e : JsError) :
  ingestedText c = Some text →
  text ≠ "" →
  String_trim currentQuery ≠ "" →
  performSemanticSearch ai (llm c) text currentQuery (topK c) = (log, Rejected e) →
  let c' := (runSearch now ai currentQuery c).2 in
  notifications c' =
    (notifications c ++ [{| AppContext.id := now;
                            AppContext.message := message e;
                            AppContext.type := AppContext.error |}])%list
  ∧ results c' = JArray []
  ∧ isLoading c' = false
  ∧ searchAttempted c' = true
  ∧ searchHistory c' = updatedHistory currentQuery (searchHistory c)
  ∧ localStorage c' =
      <[SEARCH_HISTORY_KEY := JSON_stringify (updatedHistory currentQuery (searchHistory c))]>
        (localStorage c).
Proof.
  intros Htext Hnonempty Hquery Hsearch c'. subst c'. unfold runSearch.
  rewrite Htext. destruct text as [|ch text']; [done|].
  rewrite bool_decide_eq_false_2 by done.
  cbn [setResults setSearchAttempted setIsLoading llm topK].
  by rewrite Hsearch.
Qed.

Lemma failed_search_notifies_after_history_update_witness :
  let ai := Examples.fails (ErrorInstance "quota exceeded") in
  let c' := (runSearch (H := Latin1.host) 1700000000000 ai "Stomata" Examples.page).2 in
  notifications c' =
    [{| AppContext.id := 1700000000000;
        AppContext.message := "API Error during semantic search: quota exceeded";
        AppContext.type := AppContext.error |}]
  ∧ results c' = JArray []
  ∧ isLoading c' = false
  ∧ searchAttempted c' = true
  ∧ searchHistory c' = ["Stomata"; "Chlorophyll"; "light"]
  ∧ localStorage c' =
      <[SEARCH_HISTORY_KEY := Latin1.stringify ["Stomata"; "Chlorophyll"; "light"]]>
        (localStorage Examples.page).
Proof.
  intros ai.
  exact (failed_search_notifies_after_history_update (H := Latin1.host)
           1700000000000 ai "Stomata" Examples.page Examples.notes
           [[LogText "Error during 'semantic search':";
             LogThrown (ErrorInstance "quota exceeded")]]
           (Error "API Error during semantic search: quota exceeded")
           eq_refl ltac:(discriminate) ltac:(vm_compute; discriminate)
           ltac:(vm_compute; reflexivity)).
Defined.

(** C6 as stated fails: a search for a new query that fails on a quota error
    leaves the query in the history of the component and of the store. *)
Lemma failed_search_changes_history :
  ¬ Stated.failed_search_commits_nothing (H := Latin1.host) 1700000000000
      (Examples.fails (ErrorInstance "quota exceeded")) "Stomata" Examples.page.
Proof.
  intros Hclaim.
  edestruct Hclaim as [Hhistory _]; [reflexivity | vm_compute; reflexivity |].
  vm_compute in Hhistory. discriminate Hhistory.
Qed.

(** ** The scheduler *)

Import Scheduler.

Lemma review_again_ease card gradingDate :
  (EASE_FLOOR <= easeFactor (review card Again gradingDate))%Q.
Proof. cbn. apply Q.le_max_l. Qed.

Lemma reviews_again card (dates : list Z) :
  (EASE_FLOOR <= easeFactor card)%Q →
  interval card = MIN_INTERVAL →
  (EASE_FLOOR <= easeFactor (reviews card (map (λ d, (Again, d)) dates)))%Q
  ∧ interval (reviews card (map (λ d, (Again, d)) dates)) = MIN_INTERVAL.
Proof.
  revert card. induction dates as [|d dates IH]; intros card Hease Hinterval.
  - done.
  - cbn [map]. unfold reviews. cbn [fold_left fst snd].
    apply IH; [apply review_again_ease | done].
Qed.

(** C9. Whatever the card and its interval, a review graded [Again] sets the
    interval to one day, the due date to the day after the grading date, and
    the ease factor to the old one less the penalty of 0.2, but to no less
    than 1.3; after any number of further [Again] grades the interval is
    still one day and the ease factor still at least 1.3. *)
Theorem again_resets_interval_and_floors_ease (card : ScheduledFlashcard)
    (gradingDate : Z) (further : list Z) :
  let once := review card Again gradingDate in
  let later := reviews once (map (λ d, (Again, d)) further) in
  interval once = 1%Z
  ∧ dueDate once = (gradingDate + 1)%Z
  ∧ easeFactor once = Qmax (13 # 10) (easeFactor card - (2 # 10))
  ∧ (easeFactor once <= Qmax (13 # 10) (easeFactor card))%Q
  ∧ (13 # 10 <= easeFactor once)%Q
  ∧ (13 # 10 <= easeFactor later)%Q
  ∧ interval later = 1%Z.
Proof.
  intros once later. subst once later.
  split; [done|]. split; [done|]. split; [done|]. split; [|split].
  - cbn. apply Q.max_le_compat_l.
    unfold AGAIN_PENALTY. lra.
  - apply review_again_ease.
  - apply reviews_again; [apply review_again_ease | done].
Qed.

(** ** The reference host's JSON: the stored history reads back *)

Section ReadBack.

Local Arguments String.append !_ _ / : simpl nomatch.

Lemma append_assoc (a b c : string) : (a ++ b) ++ c = a ++ (b ++ c).
Proof. induction a as [|ch a IH]; [done|]. simpl. by f_equal. Qed.

Lemma read_string_quote_chars s rest :
  Latin1.read_string (Latin1.quote_chars s ++ String "034" rest) = Some (s, rest).
Proof.
  induction s as [|c s IH]; [done|].
  cbn [Latin1.quote_chars]. rewrite append_assoc.
  destruct c as [[] [] [] [] [] [] [] []];
    simpl; rewrite IH; reflexivity.
Qed.

Lemma length_append (a b : string) :
  String.length (a ++ b) = (String.length a + String.length b)%nat.
Proof. induction a as [|ch a IH]; [done|]. simpl. by rewrite IH. Qed.

Lemma read_value_quote f s rest :
  Latin1.read_value (S f) (Latin1.quote s ++ rest) = Some (JString s, rest).
Proof.
  unfold Latin1.quote. simpl. rewrite append_assoc. simpl.
  by rewrite read_string_quote_chars.
Qed.

Lemma read_items_step f s acc :
  Latin1.read_items (S f) s acc =
    '(v, r) ← Latin1.read_value f s;
    match Latin1.skip_space r with
    | String ","%char r' => Latin1.read_items f r' (v :: acc)
    | String "]"%char r' => Some (JArray (rev (v :: acc)), r')
    | _ => None
    end.
Proof. done. Qed.

Lemma join_comma_cons p q rest :
  Latin1.join_comma (p :: q :: rest) = p ++ "," ++ Latin1.join_comma (q :: rest).
Proof. done. Qed.

Lemma read_items_join xs : ∀ x acc f rest,
  (length xs + 2 ≤ f)%nat →
  Latin1.read_items f
    (Latin1.join_comma (map Latin1.quote (x :: xs)) ++ String "]" rest) acc
  = Some (JArray (rev acc ++ map JString (x :: xs))%list, rest).
Proof.
  induction xs as [|y ys IH]; intros x acc f rest Hfuel.
  - destruct f as [|[|f]]; [simpl in Hfuel; lia..|].
    rewrite read_items_step. cbn [map Latin1.join_comma].
    by rewrite read_value_quote.
  - destruct f as [|[|f]]; [simpl in Hfuel; lia..|].
    rewrite read_items_step. cbn [map]. rewrite join_comma_cons.
    rewrite append_assoc, read_value_quote.
    change (Some (JString x, ("," ++ Latin1.join_comma (Latin1.quote y :: map Latin1.quote ys))
                             ++ String "]" rest) ≫= _)
      with (Latin1.read_items (S f)
              (Latin1.join_comma (map Latin1.quote (y :: ys)) ++ String "]" rest)
              (JString x :: acc)).
    rewrite IH by (simpl in *; lia).
    cbn [rev map]. by rewrite <- app_assoc.
Qed.

Lemma length_join_quote xs :
  (length xs ≤ String.length (Latin1.join_comma (map Latin1.quote xs)))%nat.
Proof.
  induction xs as [|x [|y ys] IH]; [done| |].
  - simpl. lia.
  - cbn [map Latin1.join_comma] in *. rewrite !length_append.
    unfold Latin1.quote at 1. simpl in *. lia.
Qed.

(** What [JSON.stringify] writes for a history, [JSON.parse] reads back. *)
Lemma parse_stringify (items : list string) :
  Latin1.parse (Latin1.stringify items) = Some (JArray (map JString items)).
Proof.
  destruct items as [|x xs]; [done|].
  unfold Latin1.parse, Latin1.stringify.
  set (body := Latin1.join_comma (map Latin1.quote (x :: xs))).
  assert (Hlen : (length (x :: xs) ≤ String.length body)%nat)
    by apply length_join_quote.
  replace (2 * String.length ("[" ++ body ++ "]") + 2)%nat
    with (S (2 * String.length ("[" ++ body ++ "]") + 1))%nat by lia.
  cbn [Latin1.read_value].
  change (Latin1.skip_space ("[" ++ body ++ "]")) with (String "[" (body ++ "]")).
  cbv beta iota.
  assert (Hskip : Latin1.skip_space (body ++ "]") = body ++ "]").
  { subst body. cbn [map Latin1.join_comma]. destruct xs; reflexivity. }
  rewrite Hskip.
  assert (Hitems : Latin1.read_items (2 * String.length ("[" ++ body ++ "]") + 1)
                     (body ++ "]") [] = Some (JArray (map JString (x :: xs)), "")).
  { subst body. apply (read_items_join xs x [] _ "").
    rewrite !length_append. simpl in *. lia. }
  assert (Hhead : ∃ rest', body ++ "]" = String "034" rest').
  { subst body. cbn [map Latin1.join_comma]. destruct xs; eexists; reflexivity. }
  destruct Hhead as [rest' Hhead]. rewrite Hhead in *. cbv beta iota.
  rewrite Hitems. done.
Qed.

End ReadBack.

(** ** Worked examples on the reference host *)

(** The end-to-end scenario of the specification: the raw array of one
    flashcard is returned with its exact field values. *)
Example one_flashcard_scenario :
  generateFlashcards (H := Latin1.host) (Examples.replies Examples.oneFlashcardText)
    "gemini-2.5-flash" Examples.notes "English"
  = ([], Resolved (JArray [Examples.oneFlashcard])).
Proof. vm_compute. reflexivity. Qed.

(** Semantic search has no array case: a bare array of snippets has no
    [snippets] property and gives the empty result. *)
Example bare_snippet_array_gives_no_results :
  performSemanticSearch (H := Latin1.host)
    (Examples.replies ("[" ++ Examples.lit "Photosynthesis converts light" ++ "]"))
    "gemini-2.5-flash" Examples.notes "light" 4
  = ([], Resolved (JArray [])).
Proof. vm_compute. reflexivity. Qed.

(** The message of an [Error] the call threw is part of the message the
    caller gets. *)
Example error_message_is_wrapped :
  ∃ e, (generateFlashcards (H := Latin1.host)
          (Examples.fails (ErrorInstance "quota exceeded"))
          "gemini-2.5-flash" Examples.notes "English").2 = Rejected e
       ∧ Stated.wraps "quota exceeded" (message e) = true
       ∧ Stated.wraps "flashcard generation" (message e) = true.
Proof. eexists. split; [vm_compute; reflexivity|]. vm_compute. done. Qed.

(** The declared MCQ schema does not bound the number of options. *)
Example mcqSchema_accepts_two_options :
  Shape.conforms mcqSchema (JArray [Examples.twoOptionMcq]) = true
  ∧ Shape.well_formed_mcq Examples.twoOptionMcq = false
  ∧ Shape.well_formed_mcq Examples.fourOptionMcq = true.
Proof. vm_compute. done. Qed.

(** A query that differs from an old entry only by case replaces it at the
    front. *)
Example history_moves_entry_to_front :
  searchHistory (updateSearchHistory (H := Latin1.host) "LIGHT" Examples.page)
  = ["LIGHT"; "Chlorophyll"].
Proof. vm_compute. reflexivity. Qed.

Example history_drops_the_eleventh :
  updatedHistory (H := Latin1.host) "k"
    ["a"; "b"; "c"; "d"; "e"; "f"; "g"; "h"; "i"; "j"]
  = ["k"; "a"; "b"; "c"; "d"; "e"; "f"; "g"; "h"; "i"].
Proof. vm_compute. reflexivity. Qed.

(** What the store holds can be read back. *)
Example stored_history_reads_back :
  Latin1.parse (Latin1.stringify ["Stomata"; "C3 \ C4"; "a" ++ dq ++ "b" ++ nl])
  = Some (JArray [JString "Stomata"; JString "C3 \ C4";
                  JString ("a" ++ dq ++ "b" ++ nl)]).
Proof. vm_compute. reflexivity. Qed.

(** [trim] removes more than the decoder skips: a vertical tab around the
    text is trimmed away, one inside the text is a syntax error. *)
Example trim_and_json_space_differ :
  Latin1.parse (Latin1.trim (String "011" "[1]" ++ String "160" EmptyString))
    = Some (JArray [JNumber (mkNumber false 1 0)])
  ∧ Latin1.parse ("[" ++ String "011" "1]") = None.
Proof. vm_compute. done. Qed.

Example parse_rejects :
  Latin1.parse "" = None ∧ Latin1.parse "[1,]" = None ∧ Latin1.parse "01" = None
  ∧ Latin1.parse "1." = None ∧ Latin1.parse "[] []" = None
  ∧ Latin1.parse "nul" = None ∧ Latin1.parse "{a:1}" = None.
Proof. vm_compute. done. Qed.

Example falsy_values :
  truthy JNull = false ∧ truthy (JBool false) = false
  ∧ truthy (JNumber (mkNumber true 0 0)) = false
  ∧ truthy (JNumber (mkNumber false 1 (-400))) = false
  ∧ truthy (JString "") = false
  ∧ truthy (JString "0") = true ∧ truthy (JArray []) = true
  ∧ truthy (JObject []) = true.
Proof. vm_compute. done. Qed.

(** From an ease factor of 2.5, [Again] grades give 2.3, 2.1, and so on down
    to the floor of 1.3, where the ease factor stays. *)
Example again_from_fresh_card :
  let eases := map (λ n, easeFactor (reviews Examples.freshCard
                                       (replicate n (Again, 21%Z))))
                   [1; 2; 3; 6; 7; 20]%nat in
  Forall2 Qeq eases [23 # 10; 21 # 10; 19 # 10; 13 # 10; 13 # 10; 13 # 10].
Proof. vm_compute. repeat constructor. Qed.

(** * Further properties of the pages and the service *)

(** ** The search page: what a search does *)

(** A search that passes both guards, spelled out. *)
Lemma runSearch_past_guards `{Platform} now ai currentQuery c text :
  ingestedText c = Some text →
  text ≠ "" →
  String_trim currentQuery ≠ "" →
  runSearch now ai currentQuery c =
    let started := updateSearchHistory currentQuery
                     (setResults (JArray [])
                        (setSearchAttempted true (setIsLoading true c))) in
    let call := performSemanticSearch ai (llm c) text currentQuery (topK c) in
    (call.1,
     setIsLoading false
       match call.2 with
       | Resolved searchResults => setResults searchResults started
       | Rejected e =>
           SemanticSearch.addNotification now (message e) AppContext.error started
       end).
Proof.
  intros Htext Hnonempty Hquery. unfold runSearch.
  rewrite Htext. destruct text as [|ch text']; [done|].
  rewrite bool_decide_eq_false_2 by done.
  cbn [setResults setSearchAttempted setIsLoading llm topK].
  by destruct (performSemanticSearch _ _ _ _ _).
Qed.

Lemma runSearch_history `{Platform} now ai currentQuery c text :
  ingestedText c = Some text →
  text ≠ "" →
  String_trim currentQuery ≠ "" →
  searchHistory (runSearch now ai currentQuery c).2
    = updatedHistory currentQuery (searchHistory c)
  ∧ localStorage (runSearch now ai currentQuery c).2
    = <[SEARCH_HISTORY_KEY := JSON_stringify (updatedHistory currentQuery (searchHistory c))]>
        (localStorage c).
Proof.
  intros Htext Hnonempty Hquery.
  rewrite (runSearch_past_guards _ _ _ _ _ Htext Hnonempty Hquery).
  cbn zeta. by destruct (performSemanticSearch _ _ _ _ _).2.
Qed.

(** X1. Without ingested text, or with a query that is blank once trimmed,
    a search never reaches the backend: whatever the backend would answer,
    the console stays silent, one info notification is added, and the
    history, the store, the results and the loading and attempted flags stay
    as they were. *)
Theorem runSearch_guards_stop_the_search `{Platform} (now : Z) (ai : Backend)
    (currentQuery : string) (c : Component) :
  ingestedText c = None ∨ ingestedText c = Some "" ∨ String_trim currentQuery = "" →
  let notice := match ingestedText c with
                | None | Some EmptyString => "Please ingest some text first."
                | Some _ => "Please enter a search query."
                end in
  let c' := (runSearch now ai currentQuery c).2 in
  (runSearch now ai currentQuery c).1 = []
  ∧ notifications c' =
      (notifications c ++ [{| AppContext.id := now;
                              AppContext.message := notice;
                              AppContext.type := AppContext.info |}])%list
  ∧ searchHistory c' = searchHistory c
  ∧ localStorage c' = localStorage c
  ∧ results c' = results c
  ∧ isLoading c' = isLoading c
  ∧ searchAttempted c' = searchAttempted c
  ∧ (∀ ai', runSearch now ai' currentQuery c = runSearch now ai currentQuery c).
Proof.
  intros Hguard. unfold runSearch.
  destruct (ingestedText c) as [[|ch text]|] eqn:Htext; [done| |done].
  destruct Hguard as [Hnone | [Hempty | Hblank]]; [done..|].
  rewrite Hblank, bool_decide_eq_true_2 by done. done.
Qed.

Lemma runSearch_guards_stop_the_search_witness :
  let c' := (runSearch (H := Latin1.host) 1700000000000
               (Examples.replies Further.twoSnippetsText) "light" Further.emptyPage).2 in
  notifications c' =
    [{| AppContext.id := 1700000000000;
        AppContext.message := "Please ingest some text first.";
        AppContext.type := AppContext.info |}]
  ∧ searchHistory c' = []
  ∧ localStorage c' = ∅
  ∧ searchAttempted c' = false.
Proof.
  destruct (runSearch_guards_stop_the_search (H := Latin1.host) 1700000000000
              (Examples.replies Further.twoSnippetsText) "light" Further.emptyPage
              (or_introl eq_refl))
    as (_ & Hnote & Hhistory & Hstore & _ & _ & Hattempted & _).
  split; [exact Hnote|]. split; [exact Hhistory|].
  split; [exact Hstore | exact Hattempted].
Defined.

(** X2. When the search passes the guards and the response decodes, the
    page shows what is under the [snippets] key (all of it, whatever [topK]
    was; the empty list if nothing truthy is there), adds no notification,
    ends the loading state, and has the query at the front of its history. *)
Theorem runSearch_shows_decoded_snippets `{Platform} (now : Z) (ai : Backend)
    (currentQuery : string) (c : Component) (text response : string)
    (decoded : Json) :
  ingestedText c = Some text →
  text ≠ "" →
  String_trim currentQuery ≠ "" →
  ai (structuredRequest (llm c) (searchPrompt text currentQuery (topK c)) searchSchema)
    = Fulfilled response →
  JSON_parse (String_trim response) = Some decoded →
  let c' := (runSearch now ai currentQuery c).2 in
  (runSearch now ai currentQuery c).1 = []
  ∧ results c' = or_default (optional_get decoded "snippets") (JArray [])
  ∧ (∀ snippets, optional_get decoded "snippets" = Some (JArray snippets) →
                 results c' = JArray snippets)
  ∧ notifications c' = notifications c
  ∧ isLoading c' = false
  ∧ searchAttempted c' = true
  ∧ searchHistory c' = updatedHistory currentQuery (searchHistory c).
Proof.
  intros Htext Hnonempty Hquery Hreply Hparse.
  rewrite (runSearch_past_guards _ _ _ _ _ Htext Hnonempty Hquery).
  rewrite (performSemanticSearch_decoded _ _ _ _ _ _ _ Hreply Hparse).
  cbn. split; [done|]. split; [done|]. split; [|done].
  by intros snippets ->.
Qed.

Lemma runSearch_shows_decoded_snippets_witness :
  let c' := (runSearch (H := Latin1.host) 1700000000000
               (Examples.replies Further.twoSnippetsText) "Light energy" Examples.page).2 in
  results c' = JArray [JString "Photosynthesis converts light"; JString "chemical energy"]
  ∧ notifications c' = []
  ∧ isLoading c' = false
  ∧ searchAttempted c' = true
  ∧ searchHistory c' = ["Light energy"; "Chlorophyll"; "light"].
Proof.
  destruct (runSearch_shows_decoded_snippets (H := Latin1.host) 1700000000000
              (Examples.replies Further.twoSnippetsText) "Light energy" Examples.page
              Examples.notes Further.twoSnippetsText
              (JObject [("snippets", JArray [JString "Photosynthesis converts light";
                                             JString "chemical energy"])])
              eq_refl ltac:(discriminate) ltac:(vm_compute; discriminate)
              eq_refl ltac:(vm_compute; reflexivity))
    as (_ & _ & Hresults & Hnotes & Hloading & Hattempted & Hhistory).
  split; [exact (Hresults _ eq_refl)|]. split; [exact Hnotes|].
  split; [exact Hloading|]. split; [exact Hattempted | exact Hhistory].
Defined.

(** ** The search history over a session *)

Import SearchPage.

Lemma filter_all {A} (P : A → Prop) `{!∀ x, Decision (P x)} (l : list A) :
  Forall P l → filter P l = l.
Proof.
  induction 1 as [|x l Hx Hl IH]; [done|].
  by rewrite filter_cons_True, IH.
Qed.








Lemma page_sound : sound (H := Latin1.host) Examples.page.
Proof.
  split; [|split].
  - cbn. lia.
  - unfold case_distinct. apply (bool_decide_unpack _). vm_compute. exact I.
  - unfold in_step. vm_compute. reflexivity.
Qed.


(** X4. Searching again for a query that differs from the last one by case
    at most changes only the spelling at the front: the history and the
    store end up as if only the later search had been made. *)
Theorem updateSearchHistory_absorbs_case_variant `{Platform}
    (newQuery earlier : string) (c : Component) :
  String_toLowerCase newQuery = String_toLowerCase earlier →
  updateSearchHistory newQuery (updateSearchHistory earlier c)
    = updateSearchHistory newQuery c.
Proof.
  intros Hsame.
  assert (Hhistory : updatedHistory newQuery (updatedHistory earlier (searchHistory c))
                     = updatedHistory newQuery (searchHistory c)).
  { rewrite (updatedHistory_cons earlier), <- Hsame.
    set (kept := filter _ (searchHistory c)).
    rewrite !updatedHistory_cons. f_equal.
    rewrite filter_cons_False by (intros Hne; by apply Hne).
    rewrite filter_all, take_idemp; [done|].
    apply Forall_take, Forall_forall. intros item Hin.
    by apply list_elem_of_filter in Hin as [Hne _]. }
  unfold updateSearchHistory, localStorage_setItem, setSearchHistory.
  cbn [searchHistory localStorage ingestedText llm notifications query isLoading
       topK results searchAttempted].
  by rewrite Hhistory, insert_insert_eq.
Qed.

Lemma updateSearchHistory_absorbs_case_variant_witness :
  searchHistory (updateSearchHistory (H := Latin1.host) "STOMATA"
                   (updateSearchHistory (H := Latin1.host) "Stomata" Examples.page))
  = ["STOMATA"; "Chlorophyll"; "light"].
Proof.
  rewrite (updateSearchHistory_absorbs_case_variant (H := Latin1.host)
             "STOMATA" "Stomata" Examples.page eq_refl).
  vm_compute. reflexivity.
Defined.

(** X14. Clearing the history forgets an earlier search altogether: the
    page and the store are as if the history had been cleared without that
    search; and clearing twice is clearing once. *)
Theorem clearHistory_forgets_updates `{Platform} (newQuery : string) (c : Component) :
  clearHistory (updateSearchHistory newQuery c) = clearHistory c
  ∧ clearHistory (clearHistory c) = clearHistory c
  ∧ searchHistory (clearHistory c) = []
  ∧ localStorage (clearHistory c) !! SEARCH_HISTORY_KEY = None.
Proof.
  unfold clearHistory, updateSearchHistory, localStorage_removeItem,
    localStorage_setItem, setSearchHistory.
  cbn [searchHistory localStorage ingestedText llm notifications query isLoading
       topK results searchAttempted].
  split; [|split; [|split]].
  - by rewrite delete_insert_eq.
  - by rewrite delete_delete_eq.
  - done.
  - apply lookup_delete_eq.
Qed.

(** X5. Clicking an entry of a sound history moves that entry to the front
    and keeps every other entry, in its old order; the query field takes the
    entry. *)
Theorem handleHistoryClick_moves_entry_to_front `{Platform} (now : Z)
    (ai : Backend) (term text : string) (c : Component)
    (before after : list string) :
  ingestedText c = Some text →
  text ≠ "" →
  String_trim term ≠ "" →
  sound c →
  searchHistory c = (before ++ term :: after)%list →
  let c' := (handleHistoryClick now ai term c).2 in
  searchHistory c' = (term :: before ++ after)%list
  ∧ query c' = term
  ∧ length (searchHistory c') = length (searchHistory c).
Proof.
  intros Htext Hnonempty Hterm (Hbound & Hdistinct & _) Hsplit c'. subst c'.
  unfold handleHistoryClick.
  destruct (runSearch_history now ai term (setQuery term c) text Htext Hnonempty Hterm)
    as [Hhistory _].
  assert (Hmoved : updatedHistory term (searchHistory c) = (term :: before ++ after)%list).
  { rewrite updatedHistory_cons, Hsplit. f_equal.
    unfold case_distinct in Hdistinct. rewrite Hsplit, fmap_app, fmap_cons in Hdistinct.
    apply NoDup_app in Hdistinct as (_ & Hbefore & [Hafter _]%NoDup_cons).
    rewrite filter_app, filter_cons_False by (intros Hne; by apply Hne).
    rewrite !filter_all.
    - apply take_ge. rewrite Hsplit, length_app in Hbound. cbn in Hbound.
      rewrite length_app. lia.
    - apply Forall_forall. intros item Hin Hsame. apply Hafter.
      rewrite <- Hsame. by apply list_elem_of_fmap_2.
    - apply Forall_forall. intros item Hin Hsame.
      apply (Hbefore (String_toLowerCase item)); [by apply list_elem_of_fmap_2|].
      rewrite Hsame. apply list_elem_of_here. }
  split; [|split].
  - rewrite Hhistory. exact Hmoved.
  - rewrite (runSearch_past_guards now ai term (setQuery term c) text
               Htext Hnonempty Hterm).
    cbn zeta. by destruct (performSemanticSearch _ _ _ _ _).2.
  - rewrite Hhistory. cbn [setQuery searchHistory]. rewrite Hmoved, Hsplit.
    cbn. rewrite !length_app. cbn. lia.
Qed.

Lemma handleHistoryClick_moves_entry_to_front_witness :
  let c' := (handleHistoryClick (H := Latin1.host) 1700000000000
               (Examples.replies Further.twoSnippetsText) "light" Examples.page).2 in
  searchHistory c' = ["light"; "Chlorophyll"]
  ∧ query c' = "light"
  ∧ length (searchHistory c') = 2%nat.
Proof.
  exact (handleHistoryClick_moves_entry_to_front (H := Latin1.host) 1700000000000
           (Examples.replies Further.twoSnippetsText) "light" Examples.notes
           Examples.page ["Chlorophyll"] []
           eq_refl ltac:(discriminate) ltac:(vm_compute; discriminate)
           page_sound eq_refl).
Defined.

(** X6. On the reference host, a page whose history is in step with the
    store reads its history back when it is mounted again: the effect hands
    [setSearchHistory] exactly the entries of the history, in order, or does
    not call it when the store holds nothing and the history is empty; the
    console stays silent. *)
Theorem stored_history_is_read_back (c : Component) :
  in_step (H := Latin1.host) c →
  storedHistory (H := Latin1.host) c
  = ([], match localStorage c !! SEARCH_HISTORY_KEY with
         | Some _ => Some (JArray (JString <$> searchHistory c))
         | None => None
         end)
  ∧ (localStorage c !! SEARCH_HISTORY_KEY = None → searchHistory c = []).
Proof.
  unfold in_step, storedHistory.
  destruct (localStorage c !! SEARCH_HISTORY_KEY) as [stored|]; [|done].
  intros ->. split; [|done].
  change (JSON_stringify (searchHistory c)) with (Latin1.stringify (searchHistory c)).
  change (JSON_parse (Latin1.stringify (searchHistory c)))
    with (Latin1.parse (Latin1.stringify (searchHistory c))).
  rewrite parse_stringify.
  unfold Latin1.stringify. cbn [String.append]. done.
Qed.

Lemma stored_history_is_read_back_witness :
  let c := session (H := Latin1.host)
             [Search 1700000000000 (Examples.fails (ErrorInstance "quota exceeded"));
              HistoryClick 1700000001000 (Examples.replies "[]") "Chlorophyll"]
             Examples.page in
  storedHistory (H := Latin1.host) c
  = ([], Some (JArray [JString "Chlorophyll"; JString "light"])).
Proof.
  intros c.
  destruct (stored_history_is_read_back c) as [Hread _].
  { unfold in_step. vm_compute. reflexivity. }
  rewrite Hread. vm_compute. reflexivity.
Defined.

(** X7. After a search that passed the guards and failed, the page shows
    the line that no relevant snippets were found, next to the error
    notification; after one that succeeded it shows the line exactly when
    what it stored as results has length zero. *)
Theorem runSearch_no_snippets_line `{Platform} (now : Z) (ai : Backend)
    (currentQuery : string) (c : Component) (text : string) :
  ingestedText c = Some text →
  text ≠ "" →
  String_trim currentQuery ≠ "" →
  let call := performSemanticSearch ai (llm c) text currentQuery (topK c) in
  let c' := (runSearch now ai currentQuery c).2 in
  (∀ e, call.2 = Rejected e →
        showsNoSnippetsLine c' = true
        ∧ notifications c' =
            (notifications c ++ [{| AppContext.id := now;
                                    AppContext.message := message e;
                                    AppContext.type := AppContext.error |}])%list)
  ∧ (∀ searchResults, call.2 = Resolved searchResults →
        showsNoSnippetsLine c' = length_is_zero searchResults).
Proof.
  intros Htext Hnonempty Hquery call c'. subst call c'.
  rewrite (runSearch_past_guards _ _ _ _ _ Htext Hnonempty Hquery). cbn zeta.
  split.
  - by intros e ->.
  - by intros searchResults ->.
Qed.

Lemma runSearch_no_snippets_line_witness :
  let c' := (runSearch (H := Latin1.host) 1700000000000
               (Examples.fails (ErrorInstance "quota exceeded")) "Stomata"
               Examples.page).2 in
  showsNoSnippetsLine c' = true
  ∧ notifications c' =
      [{| AppContext.id := 1700000000000;
          AppContext.message := "API Error during semantic search: quota exceeded";
          AppContext.type := AppContext.error |}].
Proof.
  exact (proj1 (runSearch_no_snippets_line (H := Latin1.host) 1700000000000
                  (Examples.fails (ErrorInstance "quota exceeded")) "Stomata"
                  Examples.page Examples.notes
                  eq_refl ltac:(discriminate) ltac:(vm_compute; discriminate))
               (Error "API Error during semantic search: quota exceeded")
               ltac:(vm_compute; reflexivity)).
Defined.

(** X15. With text ingested, a click on the search button while it is
    enabled always starts a search with the query as typed: the page ends
    attempted and not loading, the query is at the front of the history, and
    the only notification that can have been added is the error of a failed
    call, never a notice about the input. *)
Theorem enabled_button_starts_a_search `{Platform} (now : Z) (ai : Backend)
    (c : Component) (text : string) :
  ingestedText c = Some text →
  text ≠ "" →
  searchDisabled c = false →
  let c' := (handleSearch now ai c).2 in
  searchAttempted c' = true
  ∧ isLoading c' = false
  ∧ searchHistory c' = updatedHistory (query c) (searchHistory c)
  ∧ (∀ n, n ∈ notifications c' →
          n ∈ notifications c ∨ AppContext.type n = AppContext.error).
Proof.
  intros Htext Hnonempty Henabled.
  apply orb_false_iff in Henabled as [Hquery%bool_decide_eq_false _].
  unfold handleSearch.
  rewrite (runSearch_past_guards _ _ _ _ _ Htext Hnonempty Hquery). cbn zeta.
  destruct (performSemanticSearch _ _ _ _ _).2 as [found|e]; cbn.
  - repeat split; auto.
  - repeat split; [].
    unfold AppContext.addNotification.
    intros n [Hold | Hnew%list_elem_of_singleton]%elem_of_app; [by left|].
    right. by rewrite Hnew.
Qed.

Lemma enabled_button_starts_a_search_witness :
  let c' := (handleSearch (H := Latin1.host) 1700000000000
               (Examples.replies Further.twoSnippetsText) Examples.page).2 in
  searchAttempted c' = true
  ∧ isLoading c' = false
  ∧ searchHistory c' = ["light"; "Chlorophyll"].
Proof.
  destruct (enabled_button_starts_a_search (H := Latin1.host) 1700000000000
              (Examples.replies Further.twoSnippetsText) Examples.page Examples.notes
              eq_refl ltac:(discriminate) ltac:(vm_compute; reflexivity))
    as (Hattempted & Hloading & Hhistory & _).
  split; [exact Hattempted|]. split; [exact Hloading|].
  rewrite Hhistory. vm_compute. reflexivity.
Defined.

(** ** Notifications *)

(** X8. Dismissing by id removes the notification just added under that id
    together with every older one of the same id (the id is the millisecond
    of creation), so that the list is as before when no older one shares the
    id; dismissing another id and adding commute. *)
Theorem removeNotification_after_addNotification (now other : Z)
    (message : string) (type : AppContext.NotificationType)
    (notifications : list AppContext.Notification) :
  AppContext.removeNotification now
    (AppContext.addNotification now message type notifications)
  = AppContext.removeNotification now notifications
  ∧ (Forall (λ n, AppContext.id n ≠ now) notifications →
     AppContext.removeNotification now
       (AppContext.addNotification now message type notifications)
     = notifications)
  ∧ (other ≠ now →
     AppContext.removeNotification other
       (AppContext.addNotification now message type notifications)
     = AppContext.addNotification now message type
         (AppContext.removeNotification other notifications)).
Proof.
  unfold AppContext.removeNotification, AppContext.addNotification.
  split; [|split].
  - rewrite filter_app, filter_cons_False, filter_nil, app_nil_r; [done|].
    intros Hne. by apply Hne.
  - intros Hfresh.
    rewrite filter_app, filter_cons_False, filter_nil, app_nil_r.
    + by apply filter_all.
    + intros Hne. by apply Hne.
  - intros Hother. rewrite filter_app, filter_cons_True; [done|].
    cbn. congruence.
Qed.

Lemma removeNotification_after_addNotification_witness :
  let older := [{| AppContext.id := 1700000000000;
                   AppContext.message := "Please enter a search query.";
                   AppContext.type := AppContext.info |}] in
  AppContext.removeNotification 1700000000500
    (AppContext.addNotification 1700000000500 "API Error" AppContext.error older)
  = older
  ∧ AppContext.removeNotification 1700000000000
      (AppContext.addNotification 1700000000500 "API Error" AppContext.error older)
    = AppContext.addNotification 1700000000500 "API Error" AppContext.error [].
Proof.
  intros older.
  destruct (removeNotification_after_addNotification 1700000000500 1700000000000
              "API Error" AppContext.error older) as (_ & Hfresh & Hother).
  split.
  - apply Hfresh. repeat constructor. cbn. lia.
  - rewrite Hother by lia. reflexivity.
Defined.

(** ** The study planner *)

Lemma handleGenerate_past_guard `{Platform} now ai p text :
  StudyPlanner.ingestedText p = Some text →
  text ≠ "" →
  StudyPlanner.handleGenerate now ai p =
    let started := StudyPlanner.setStudyPlan JNull (StudyPlanner.setIsLoading true p) in
    let call := StudyPlanner.generateStudyPlan ai (StudyPlanner.llm p) text
                  (StudyPlanner.days p) (StudyPlanner.language p) in
    (call.1,
     StudyPlanner.setIsLoading false
       match call.2 with
       | Resolved plan => StudyPlanner.setStudyPlan plan started
       | Rejected e =>
           StudyPlanner.addNotification now (message e) AppContext.error started
       end).
Proof.
  intros Htext Hnonempty. unfold StudyPlanner.handleGenerate.
  rewrite Htext. destruct text as [|ch text']; [done|].
  by destruct (StudyPlanner.generateStudyPlan _ _ _ _ _).
Qed.

(** X9. When the generation of a study plan fails, the plan that the page
    showed before is gone: the page holds no plan, renders no plan display,
    shows the message of the error as an error notification, and is no
    longer loading. *)
Theorem handleGenerate_failure_discards_plan `{Platform} (now : Z) (ai : Backend)
    (p : StudyPlanner.Page) (text : string) (log : Console) (e : JsError) :
  StudyPlanner.ingestedText p = Some text →
  text ≠ "" →
  StudyPlanner.generateStudyPlan ai (StudyPlanner.llm p) text (StudyPlanner.days p)
    (StudyPlanner.language p) = (log, Rejected e) →
  let p' := (StudyPlanner.handleGenerate now ai p).2 in
  StudyPlanner.studyPlan p' = JNull
  ∧ StudyPlanner.rendersPlanDisplay p' = false
  ∧ StudyPlanner.notifications p' =
      (StudyPlanner.notifications p
       ++ [{| AppContext.id := now;
              AppContext.message := message e;
              AppContext.type := AppContext.error |}])%list
  ∧ StudyPlanner.isLoading p' = false.
Proof.
  intros Htext Hnonempty Hcall.
  rewrite (handleGenerate_past_guard _ _ _ _ Htext Hnonempty), Hcall. done.
Qed.

Lemma handleGenerate_failure_discards_plan_witness :
  let p' := (StudyPlanner.handleGenerate (H := Latin1.host) 1700000000000
               (Examples.replies "{ not json") Further.plannerPage).2 in
  StudyPlanner.studyPlan p' = JNull
  ∧ StudyPlanner.rendersPlanDisplay p' = false
  ∧ StudyPlanner.notifications p' =
      [{| AppContext.id := 1700000000000;
          AppContext.message :=
            "The API returned an invalid format for study plan generation. Please try again.";
          AppContext.type := AppContext.error |}]
  ∧ StudyPlanner.isLoading p' = false.
Proof.
  exact (handleGenerate_failure_discards_plan (H := Latin1.host) 1700000000000
           (Examples.replies "{ not json") Further.plannerPage Examples.notes
           [[LogText "JSON parsing error during 'study plan generation':"; LogSyntaxError];
            [LogText "Received malformed text from API:"; LogText "{ not json"]]
           (Error "The API returned an invalid format for study plan generation. Please try again.")
           eq_refl ltac:(discriminate) ltac:(vm_compute; reflexivity)).
Defined.



(** ** The entry points that return text *)

(** X11. Each of the eight entry points that return text settles in one of
    two ways: it resolves with the text of the response as it is, neither
    trimmed nor decoded, and writes nothing to the console; or, when the
    call throws, it logs the thrown value and rejects with the backend error
    of its own feature, never with the malformed-response error. *)
Theorem text_entry_points_settle (ai : GeminiText.TextBackend)
    (model text topic context question language fileData mimeType : string)
    (incorrectMCQs : list Types.MCQ) (history : list Types.ChatMessage) :
  Further.text_call_settles ai "fetching topic info"
    (GeminiText.fetchTopicInfo ai model topic language)
  ∧ Further.text_call_settles ai "summary generation"
      (GeminiText.generateSummary ai model text language)
  ∧ Further.text_call_settles ai "answer generation"
      (GeminiText.generateAnswer ai model context question language)
  ∧ Further.text_call_settles ai "personalized study guide generation"
      (GeminiText.generatePersonalizedStudyGuide ai model text incorrectMCQs language)
  ∧ Further.text_call_settles ai "file text extraction"
      (GeminiText.extractTextFromFile ai model fileData mimeType)
  ∧ Further.text_call_settles ai "audio transcription"
      (GeminiText.transcribeAudio ai model fileData mimeType)
  ∧ Further.text_call_settles ai "AI Tutor response generation"
      (GeminiText.getTutorResponse ai model context history question language)
  ∧ Further.text_call_settles ai "essay argument generation"
      (GeminiText.generateEssayArguments ai model context topic language).
Proof.
  unfold GeminiText.fetchTopicInfo, GeminiText.generateSummary,
    GeminiText.generateAnswer, GeminiText.generatePersonalizedStudyGuide,
    GeminiText.extractTextFromFile, GeminiText.transcribeAudio,
    GeminiText.getTutorResponse, GeminiText.generateEssayArguments.
  repeat split;
    match goal with
    | |- Further.text_call_settles _ _ (match ai ?request with _ => _ end) =>
        exists request; destruct (ai request) as [reply|error];
        [ reflexivity
        | eexists; split;
          [ by destruct error
          | split; [apply backend_message_kind|];
            split; [apply backend_message_kind | done] ] ]
    end.
Qed.

(** ** The displayed tab *)

Import MainContent.

Lemma effect_coherent v : Further.coherent (effect v).
Proof.
  unfold effect, Further.coherent. case_bool_decide as Hcase; cbn; [done|].
  congruence.
Qed.

Lemma step_coherent e v : Further.coherent v → Further.coherent (step e v).
Proof.
  intros Hv. destruct e as [tab|]; cbn [step].
  - case_bool_decide; [done | apply effect_coherent].
  - destruct (timer v) as [tab|] eqn:Htimer; [|done].
    case_bool_decide; [|apply effect_coherent].
    unfold Further.coherent in *. rewrite Htimer in Hv. cbn. by destruct Hv.
Qed.

(** X12. From the first render on, through any tab selections and timeouts:
    a pending timeout is always the one for the active tab, and with none
    pending the active tab is the one displayed. When the pending timeout
    fires, the displayed tab becomes the active tab, with the fade-in class
    and nothing pending; no tab selected in between is ever displayed. *)
Theorem displayed_tab_follows_active_tab (first : Types.Tab) (events : list Event) :
  let v := run events (mount first) in
  Further.coherent v
  ∧ (∀ tab, timer v = Some tab →
       step TimeoutFires v
       = {| activeTab := activeTab v; displayedTab := activeTab v;
            animationClass := "fade-in"; timer := None |}).
Proof.
  assert (Hrun : ∀ v, Further.coherent v → Further.coherent (run events v)).
  { induction events as [|e events IH]; intros v Hv; [done|].
    cbn [run fold_left]. apply IH, step_coherent, Hv. }
  intros v. assert (Hv : Further.coherent v) by (apply Hrun; done).
  split; [done|]. intros tab Htimer.
  unfold Further.coherent in Hv. rewrite Htimer in Hv. destruct Hv as [-> Hne].
  cbn [step]. rewrite Htimer.
  rewrite bool_decide_eq_false_2 by done.
  unfold effect. cbn. by rewrite bool_decide_eq_false_2 by (intros Hx; by apply Hx).
Qed.

Lemma displayed_tab_follows_active_tab_witness :
  let v := run [SetActiveTab Types.Summary; SetActiveTab Types.AITutor]
             (mount Types.Ingest) in
  timer v = Some Types.AITutor
  ∧ step TimeoutFires v
    = {| activeTab := Types.AITutor; displayedTab := Types.AITutor;
         animationClass := "fade-in"; timer := None |}.
Proof.
  intros v. split; [reflexivity|].
  exact (proj2 (displayed_tab_follows_active_tab Types.Ingest
                  [SetActiveTab Types.Summary; SetActiveTab Types.AITutor])
               Types.AITutor eq_refl).
Defined.

(** X13. Selecting another tab and coming back before the timeout fires
    leaves the view on the fade-out class with no timeout pending: the old
    tab is displayed with that class, and stays so when time passes, until
    the next selection of a tab. *)
Theorem returning_early_leaves_fade_out (v : View) (a b : Types.Tab) :
  timer v = None →
  activeTab v = a →
  displayedTab v = a →
  b ≠ a →
  let v' := run [SetActiveTab b; SetActiveTab a] v in
  v' = {| activeTab := a; displayedTab := a;
          animationClass := "fade-out"; timer := None |}
  ∧ step TimeoutFires v' = v'
  ∧ step (SetActiveTab a) v' = v'.
Proof.
  intros Htimer Hactive Hdisplayed Hne. destruct v as [act disp cls tm].
  cbn in Htimer, Hactive, Hdisplayed. subst act disp tm.
  assert (Haway : step (SetActiveTab b)
                    {| activeTab := a; displayedTab := a;
                       animationClass := cls; timer := None |}
                  = {| activeTab := b; displayedTab := a;
                       animationClass := "fade-out"; timer := Some b |}).
  { cbn. rewrite bool_decide_eq_false_2 by done.
    unfold effect. cbn. by rewrite bool_decide_eq_true_2. }
  assert (Hback : step (SetActiveTab a)
                    {| activeTab := b; displayedTab := a;
                       animationClass := "fade-out"; timer := Some b |}
                  = {| activeTab := a; displayedTab := a;
                       animationClass := "fade-out"; timer := None |}).
  { cbn. rewrite bool_decide_eq_false_2 by done.
    unfold effect. cbn. by rewrite bool_decide_eq_false_2 by (intros Hx; by apply Hx). }
  cbv zeta. unfold run. cbn [fold_left]. rewrite Haway, Hback.
  split; [done|]. split; [done|]. cbn. by rewrite bool_decide_eq_true_2.
Qed.

Lemma returning_early_leaves_fade_out_witness :
  run [SetActiveTab Types.Summary; SetActiveTab Types.Ingest] (mount Types.Ingest)
  = {| activeTab := Types.Ingest; displayedTab := Types.Ingest;
       animationClass := "fade-out"; timer := None |}.
Proof.
  exact (proj1 (returning_early_leaves_fade_out (mount Types.Ingest)
                  Types.Ingest Types.Summary eq_refl eq_refl eq_refl
                  ltac:(discriminate))).
Defined.
